(** * excel-constructor: a model of [src/index.js] and its properties

    The module builds ExcelJS workbooks from header/data descriptions.
    The JavaScript values the functions receive are modelled by an
    untyped [value] datatype, thrown exceptions by a completion type, and
    the ExcelJS worksheet (owned by the library, mutated in place through
    its interface) by the record of what the interface was asked to do. *)

From Stdlib Require Import String Ascii DecimalString ZArith Bool Lia List.
From Equations Require Import Equations.
Import ListNotations.
Open Scope Z_scope.

(** ** JavaScript strings

    A JavaScript string is a sequence of UTF-16 code units. *)

Definition jsstring := list Z.

(** A string literal of the source. *)
Definition lit (s : string) : jsstring :=
  map (fun a => Z.of_N (N_of_ascii a)) (list_ascii_of_string s).
Arguments lit s%_string.

(** [String.fromCharCode(n)] for an integer [n]: the one code unit
    [ToUint16(n)]. *)
Definition fromCharCode (n : Z) : jsstring := [n mod 65536].

(** [Number::toString] of an integer. *)
Definition decimal (n : Z) : jsstring :=
  lit (NilZero.string_of_int (Z.to_int n)).

Definition jsstring_eqb (a b : jsstring) : bool :=
  if list_eq_dec Z.eq_dec a b then true else false.

(** The code unit is one of [A]..[Z]. *)
Definition isUpperLetter (c : Z) : bool := (65 <=? c) && (c <=? 90).

(** ** Column letters *)

(** The [while] loop of [getExcelColumnLetter]; its state is the pair of
    the two variables [colIndex] and [letter]. *)
Equations? getExcelColumnLetter_loop (colIndex : Z) (letter : jsstring)
  : jsstring by wf (Z.to_nat colIndex) lt :=
  getExcelColumnLetter_loop colIndex letter with Z_gt_le_dec colIndex 0 => {
    | left _ :=
        let mod_ := (colIndex - 1) mod 26 in
        getExcelColumnLetter_loop ((colIndex - 1) / 26)
                                  (fromCharCode (65 + mod_) ++ letter);
    | right _ := letter }.
Proof.
  assert ((colIndex - 1) / 26 <= colIndex - 1)
    by (apply Z.div_le_upper_bound; lia).
  lia.
Qed.

Definition getExcelColumnLetter (colIndex : Z) : jsstring :=
  getExcelColumnLetter_loop colIndex [].

(** The spreadsheet ordering of column labels: shorter labels first,
    labels of one length in dictionary order. *)
Fixpoint lex_ltb (s t : jsstring) : bool :=
  match s, t with
  | a :: s', b :: t' => (a <? b) || ((a =? b) && lex_ltb s' t')
  | _, _ => false
  end.

Definition label_ltb (s t : jsstring) : bool :=
  (Z.of_nat (length s) <? Z.of_nat (length t))
  || ((Z.of_nat (length s) =? Z.of_nat (length t)) && lex_ltb s t).

(** The number a bijective base-26 label denotes ([A] is 1, [Z] is 26,
    [AA] is 27). *)
Definition columnNumber (s : jsstring) : Z :=
  fold_left (fun acc c => acc * 26 + (c - 64)) s 0.

(** ** JavaScript values

    Numbers are the integers (widths, indices and lengths; fractions and
    [NaN] are outside the model).  An object is the list of its own
    enumerable string-keyed properties in the order [Object.keys]
    enumerates them; inherited properties and functions as values are
    outside the model.  An array is the list of its elements (no holes). *)

#[local] Set Warnings "-register-all".

Inductive value :=
| VUndefined
| VNull
| VBool (b : bool)
| VNum (n : Z)
| VStr (s : jsstring)
| VObj (props : list (jsstring * value))
| VArr (elems : list value).

(** What a call can throw: an [Error] object with its message and cause,
    or a [TypeError] of the runtime itself. *)
Inductive exn :=
| ErrorObj (message : jsstring) (cause : option value)
| TypeError.

Inductive completion (A : Type) :=
| Normal (a : A)
| Throw (e : exn).
Arguments Normal {A} a.
Arguments Throw {A} e.

Definition truthy (v : value) : bool :=
  match v with
  | VUndefined | VNull => false
  | VBool b => b
  | VNum n => negb (n =? 0)
  | VStr s => match s with [] => false | _ :: _ => true end
  | VObj _ | VArr _ => true
  end.

Definition isArray (v : value) : bool :=
  match v with VArr _ => true | _ => false end.

Fixpoint assoc (k : jsstring) (ps : list (jsstring * value)) : option value :=
  match ps with
  | [] => None
  | (k', v) :: ps' => if jsstring_eqb k' k then Some v else assoc k ps'
  end.

Fixpoint indexed_from {A} (i : Z) (xs : list A) : list (Z * A) :=
  match xs with
  | [] => []
  | x :: xs' => (i, x) :: indexed_from (i + 1) xs'
  end.

(** The own enumerable properties [Object.keys] and [Object.values] go
    through; [undefined] and [null] cannot be converted to an object. *)
Definition ownProperties (v : value) : completion (list (jsstring * value)) :=
  match v with
  | VUndefined | VNull => Throw TypeError
  | VBool _ | VNum _ => Normal []
  | VStr s =>
      Normal (map (fun p => (decimal (fst p), VStr [snd p])) (indexed_from 0 s))
  | VObj ps => Normal ps
  | VArr xs =>
      Normal (map (fun p => (decimal (fst p), snd p)) (indexed_from 0 xs))
  end.

Definition Object_keys (v : value) : completion (list jsstring) :=
  match ownProperties v with
  | Normal ps => Normal (map fst ps)
  | Throw e => Throw e
  end.

Definition Object_values (v : value) : completion (list value) :=
  match ownProperties v with
  | Normal ps => Normal (map snd ps)
  | Throw e => Throw e
  end.

(** The property read [v[k]] (and [v.k]). *)
Definition getProp (v : value) (k : jsstring) : completion value :=
  match v with
  | VUndefined | VNull => Throw TypeError
  | VBool _ | VNum _ => Normal VUndefined
  | VObj ps =>
      Normal (match assoc k ps with Some x => x | None => VUndefined end)
  | VStr s =>
      if jsstring_eqb k (lit "length") then Normal (VNum (Z.of_nat (length s)))
      else match ownProperties v with
           | Normal ps =>
               Normal (match assoc k ps with Some x => x | None => VUndefined end)
           | Throw e => Throw e
           end
  | VArr xs =>
      if jsstring_eqb k (lit "length") then Normal (VNum (Z.of_nat (length xs)))
      else match ownProperties v with
           | Normal ps =>
               Normal (match assoc k ps with Some x => x | None => VUndefined end)
           | Throw e => Throw e
           end
  end.

(** The array read [xs[i]]. *)
Definition arrayGet (xs : list value) (i : Z) : value :=
  if i <? 0 then VUndefined else nth (Z.to_nat i) xs VUndefined.

(** [ToString], as a template literal applies it.  An object with an own
    [toString] property (never callable here) has no primitive value. *)
Fixpoint toString (v : value) : completion jsstring :=
  match v with
  | VUndefined => Normal (lit "undefined")
  | VNull => Normal (lit "null")
  | VBool true => Normal (lit "true")
  | VBool false => Normal (lit "false")
  | VNum n => Normal (decimal n)
  | VStr s => Normal s
  | VObj ps =>
      match assoc (lit "toString") ps with
      | Some _ => Throw TypeError
      | None => Normal (lit "[object Object]")
      end
  | VArr xs =>
      (fix join (xs : list value) : completion jsstring :=
         match xs with
         | [] => Normal []
         | x :: rest =>
             let element :=
               match x with
               | VUndefined | VNull => Normal []
               | _ => toString x
               end in
             match element with
             | Throw e => Throw e
             | Normal s =>
                 match rest with
                 | [] => Normal s
                 | _ :: _ =>
                     match join rest with
                     | Throw e => Throw e
                     | Normal t => Normal (s ++ lit "," ++ t)
                     end
                 end
             end
         end) xs
  end.

(** [new Error(message, options)]: only the [cause] property of
    [options] is read. *)
Definition newError (message : jsstring) (options : value) : exn :=
  ErrorObj message
           (match options with
            | VObj ps => assoc (lit "cause") ps
            | _ => None
            end).

(** [xs.map(f)] for a callback that can throw. *)
Fixpoint mapC {A B} (f : A -> completion B) (xs : list A)
  : completion (list B) :=
  match xs with
  | [] => Normal []
  | x :: xs' =>
      match f x with
      | Throw e => Throw e
      | Normal y =>
          match mapC f xs' with
          | Throw e => Throw e
          | Normal ys => Normal (y :: ys)
          end
      end
  end.

(** ** Computations on a mutable object

    A computation reads and updates the object's state and completes
    normally or by a throw; the updates made before a throw remain. *)

Definition M (S A : Type) : Type := S -> S * completion A.

Definition ret {S A} (a : A) : M S A := fun s => (s, Normal a).

Definition bind {S A B} (m : M S A) (k : A -> M S B) : M S B :=
  fun s =>
    match m s with
    | (s', Normal a) => k a s'
    | (s', Throw e) => (s', Throw e)
    end.

Definition throw {S A} (e : exn) : M S A := fun s => (s, Throw e).

Definition lift {S A} (c : completion A) : M S A := fun s => (s, c).

Definition modify {S} (f : S -> S) : M S unit := fun s => (f s, Normal tt).

Notation "x <- m ;; k" := (bind m (fun x => k))
  (at level 61, m at next level, right associativity).
Notation "m ;;; k" := (bind m (fun _ => k))
  (at level 61, right associativity).

(** [xs.forEach((x, index) => body)], with [index] counted from [i]. *)
Fixpoint forEach_from {S} (body : S -> value -> Z -> S)
         (i : Z) (xs : list value) (s : S) : S :=
  match xs with
  | [] => s
  | x :: xs' => forEach_from body (i + 1) xs' (body s x i)
  end.

Definition forEach {S} (body : S -> value -> Z -> S)
           (xs : list value) (s : S) : S :=
  forEach_from body 0 xs s.

Fixpoint forEachM_from {S} (body : value -> Z -> M S unit)
         (i : Z) (xs : list value) : M S unit :=
  match xs with
  | [] => ret tt
  | x :: xs' => body x i ;;; forEachM_from body (i + 1) xs'
  end.

Definition forEachM {S} (body : value -> Z -> M S unit)
           (xs : list value) : M S unit :=
  forEachM_from body 0 xs.

(** ** The ExcelJS worksheet

    ExcelJS owns the worksheet; the module only calls its interface.  A
    worksheet is modelled by the arguments it was created with and the
    assignments made through its rows, columns and cells, most recent
    first. *)

Inductive call :=
| RowFont (row : value) (font : value)
    (* worksheet.getRow(row).font = font *)
| CellValue (address : value) (v : value)
    (* worksheet.getCell(address).value = v *)
| RowCellValue (row : Z) (col : jsstring) (v : value)
    (* worksheet.getRow(row).getCell(col).value = v *)
| ColumnWidth (col : Z) (width : value)
    (* worksheet.getColumn(col).width = width *)
| ColumnAlignment (col : Z) (alignment : value)
    (* worksheet.getColumn(col).alignment = alignment *)
| MergeCells (range : jsstring).
    (* worksheet.mergeCells(range) *)

Record Worksheet := mkWorksheet {
  ws_name : value;
  ws_options : value;
  ws_calls : list call
}.

Definition record (c : call) (worksheet : Worksheet) : Worksheet :=
  mkWorksheet (ws_name worksheet) (ws_options worksheet)
              (c :: ws_calls worksheet).

(** A workbook is the sequence of its worksheets, in creation order. *)
Definition Workbook := list Worksheet.

(** The bytes [workbook.xlsx.writeBuffer()] serialises from a workbook. *)
Inductive Buffer := Xlsx (workbook : Workbook).

(** *** Reading a worksheet back *)

Fixpoint lastAssigned {A} (sel : call -> option A) (calls : list call)
  : option A :=
  match calls with
  | [] => None
  | c :: older =>
      match sel c with
      | Some a => Some a
      | None => lastAssigned sel older
      end
  end.

Definition columnWidth (worksheet : Worksheet) (col : Z) : option value :=
  lastAssigned (fun c => match c with
                         | ColumnWidth col' w =>
                             if col' =? col then Some w else None
                         | _ => None
                         end) (ws_calls worksheet).

Definition columnAlignment (worksheet : Worksheet) (col : Z) : option value :=
  lastAssigned (fun c => match c with
                         | ColumnAlignment col' a =>
                             if col' =? col then Some a else None
                         | _ => None
                         end) (ws_calls worksheet).

Definition rowFont (worksheet : Worksheet) (row : Z) : option value :=
  lastAssigned (fun c => match c with
                         | RowFont (VNum row') f =>
                             if row' =? row then Some f else None
                         | _ => None
                         end) (ws_calls worksheet).

(** The value of the cell in column [col] of row [row]: a cell is reached
    by its address ([worksheet.getCell("A1")]) or through its row
    ([worksheet.getRow(1).getCell("A")]). *)
Definition cellValue (worksheet : Worksheet) (col : jsstring) (row : Z)
  : option value :=
  lastAssigned (fun c => match c with
                         | CellValue (VStr a) v =>
                             if jsstring_eqb a (col ++ decimal row)
                             then Some v else None
                         | RowCellValue row' col' v =>
                             if (row' =? row) && jsstring_eqb col' col
                             then Some v else None
                         | _ => None
                         end) (ws_calls worksheet).

Definition merged (worksheet : Worksheet) (range : jsstring) : bool :=
  existsb (fun c => match c with
                    | MergeCells r => jsstring_eqb r range
                    | _ => false
                    end) (ws_calls worksheet).

(** *** Worksheets of a workbook

    [workbook.addWorksheet] returns a reference to the worksheet it adds;
    the later assignments through that reference change the worksheet
    the workbook holds.  A reference is the position in the workbook. *)

Definition sheetRef := nat.

Fixpoint updateSheet (ref : sheetRef) (f : Worksheet -> Worksheet)
         (workbook : Workbook) : Workbook :=
  match workbook, ref with
  | [], _ => []
  | worksheet :: rest, O => f worksheet :: rest
  | worksheet :: rest, S ref' => worksheet :: updateSheet ref' f rest
  end.

Definition onSheet (ref : sheetRef) (f : Worksheet -> Worksheet)
  : M Workbook unit :=
  modify (updateSheet ref f).

(** ** The functions of [index.js] *)

Definition createWorkbook : Workbook := [].

Definition pageSetupOptions : value :=
  VObj [(lit "pageSetup",
         VObj [(lit "paperSize", VNum 9);
               (lit "orientation", VStr (lit "landscape"))])].

Definition addWorksheet (worksheetName : value) : M Workbook sheetRef :=
  fun workboork =>
    (workboork ++ [mkWorksheet worksheetName pageSetupOptions []],
     Normal (length workboork)).

(** [Array.isArray(x) ? x : [x]] *)
Definition asArray (x : value) : list value :=
  match x with
  | VArr xs => xs
  | _ => [x]
  end.

Definition boldFont : value := VObj [(lit "bold", VBool true)].

Definition makeRowsBold (worksheet : Worksheet) (rows : value) : Worksheet :=
  let rows := asArray rows in
  fold_left (fun worksheet rowNum => record (RowFont rowNum boldFont) worksheet)
            rows worksheet.

Definition defaultAlignment : value :=
  VObj [(lit "vertical", VStr (lit "middle"));
        (lit "horizontal", VStr (lit "center"));
        (lit "wrapText", VBool true)].

Definition setColumnWidths (worksheet : Worksheet) (widths : list value)
  : Worksheet :=
  forEach (fun worksheet width index =>
             record (ColumnAlignment (index + 1) defaultAlignment)
                    (record (ColumnWidth (index + 1) width) worksheet))
          widths worksheet.

Definition setHeaders (worksheet : Worksheet) (headers : list value)
  : Worksheet :=
  forEach (fun worksheet header index =>
             record (CellValue (VStr (fromCharCode (65 + index) ++ lit "1"))
                               header) worksheet)
          headers worksheet.

Definition mergeCells (cellFrom cellTo v : value) : M Worksheet unit :=
  from <- lift (toString cellFrom) ;;
  to <- lift (toString cellTo) ;;
  modify (record (MergeCells (from ++ lit ":" ++ to))) ;;;
  modify (record (CellValue cellFrom v)).

Definition complexHeaderMessage : jsstring :=
  lit "Either cell or from & to fields must be present in headers array objects:".

(** The body of the loop of [setComplexHeaders], for one entry. *)
Definition setComplexHeader (header : value) : M Worksheet unit :=
  cell <- lift (getProp header (lit "cell")) ;;
  if truthy cell then
    v <- lift (getProp header (lit "value")) ;;
    modify (record (CellValue cell v))
  else
    from <- lift (getProp header (lit "from")) ;;
    if truthy from then
      to <- lift (getProp header (lit "to")) ;;
      if truthy to then
        v <- lift (getProp header (lit "value")) ;;
        mergeCells from to v
      else throw (newError complexHeaderMessage header)
    else throw (newError complexHeaderMessage header).

Fixpoint setComplexHeaders (headers : list value) : M Worksheet unit :=
  match headers with
  | [] => ret tt
  | header :: rest => setComplexHeader header ;;; setComplexHeaders rest
  end.

Definition addDataRow (worksheet : Worksheet) (rowIndex : Z)
           (data : list value) : Worksheet :=
  forEach (fun worksheet item index =>
             record (RowCellValue rowIndex (fromCharCode (65 + index)) item)
                    worksheet)
          data worksheet.

Definition getBuffer (workbook : Workbook) : Buffer := Xlsx workbook.

(** *** [createBuffer] *)

Definition sizeMessage : jsstring :=
  lit "Size of headers, data and worksheetNames must be equal".

(** A boolean compared with a number by [!=] is first made a number. *)
Definition boolToNumber (b : bool) : Z := if b then 1 else 0.

(** [(headers.length != data.length) != worksheetNames.length] *)
Definition sizeCheck (headers data worksheetNames : list value) : bool :=
  negb (boolToNumber (negb (Z.of_nat (length headers)
                            =? Z.of_nat (length data)))
        =? Z.of_nat (length worksheetNames)).

(** The body of the [for] loop, at index [i]. *)
Definition sheetBody (headers data : list value) (i : Z) : M Workbook unit :=
  let sheetHeaders := arrayGet headers i in
  let sheetData := arrayGet data i in
  worksheet <- addWorksheet VUndefined ;;
  onSheet worksheet (fun ws => makeRowsBold ws (VArr [VNum 1])) ;;;
  items <- lift (Object_values sheetHeaders) ;;
  headerValues <- lift (mapC (fun item => getProp item (lit "name")) items) ;;
  onSheet worksheet (fun ws => setHeaders ws headerValues) ;;;
  items <- lift (Object_values sheetHeaders) ;;
  columnWidths <- lift (mapC (fun item => getProp item (lit "width")) items) ;;
  onSheet worksheet (fun ws => setColumnWidths ws columnWidths) ;;;
  fieldNames <- lift (Object_keys sheetHeaders) ;;
  let startDataRow := 2 in
  match sheetData with
  | VArr rows =>
      forEachM (fun dataItem index =>
                  values <- lift (mapC (fun field => getProp dataItem field)
                                       fieldNames) ;;
                  onSheet worksheet
                          (fun ws => addDataRow ws (startDataRow + index) values))
               rows
  | _ => throw TypeError
  end.

(** [for (let i = ...; ...; i++) body], with [n] iterations to go. *)
Fixpoint forLoop {S} (n : nat) (i : Z) (body : Z -> M S unit) : M S unit :=
  match n with
  | O => ret tt
  | S n' => body i ;;; forLoop n' (i + 1) body
  end.

(** The result of a call: the workbook the call created, if it got that
    far, in the state the call left it, and the completion.  The function
    is [async]: a throw is the rejection of the promise it returns. *)
Definition createBuffer (headers data worksheetNames : value)
  : option Workbook * completion Buffer :=
  let headers := asArray headers in
  let data := asArray data in
  let worksheetNames := asArray worksheetNames in
  if sizeCheck headers data worksheetNames then
    (None, Throw (newError sizeMessage VUndefined))
  else
    let workbook := createWorkbook in
    match forLoop (length headers) 0 (sheetBody headers data) workbook with
    | (workbook, Normal _) => (Some workbook, Normal (getBuffer workbook))
    | (workbook, Throw e) => (Some workbook, Throw e)
    end.

(** Induction on values, through the lists an object and an array hold. *)
Fixpoint value_nested_ind (P : value -> Prop)
         (Hundefined : P VUndefined) (Hnull : P VNull)
         (Hbool : forall b, P (VBool b)) (Hnum : forall n, P (VNum n))
         (Hstr : forall s, P (VStr s))
         (Hobj : forall ps, Forall (fun p => P (snd p)) ps -> P (VObj ps))
         (Harr : forall xs, Forall P xs -> P (VArr xs))
         (v : value) : P v :=
  let rec := value_nested_ind P Hundefined Hnull Hbool Hnum Hstr Hobj Harr in
  match v with
  | VUndefined => Hundefined
  | VNull => Hnull
  | VBool b => Hbool b
  | VNum n => Hnum n
  | VStr s => Hstr s
  | VObj ps =>
      Hobj ps ((fix all (ps : list (jsstring * value))
                : Forall (fun p => P (snd p)) ps :=
                  match ps with
                  | [] => Forall_nil _
                  | p :: ps' => Forall_cons p (rec (snd p)) (all ps')
                  end) ps)
  | VArr xs =>
      Harr xs ((fix all (xs : list value) : Forall P xs :=
                  match xs with
                  | [] => Forall_nil _
                  | x :: xs' => Forall_cons x (rec x) (all xs')
                  end) xs)
  end.

(** ** Lengths of column labels

    The last index whose label has [k] letters: 26 for one letter, 702
    for two, 18278 for three. *)
Fixpoint lastIndexOfLength (k : nat) : Z :=
  match k with
  | O => 0
  | S k' => 26 * (lastIndexOfLength k' + 1)
  end.

(** ** What a function adds to a worksheet

    [extends P worksheet worksheet']: [worksheet'] is [worksheet] with
    further assignments, all of them in [P], made after those of
    [worksheet]. *)
Definition extends (P : call -> Prop) (worksheet worksheet' : Worksheet)
  : Prop :=
  ws_name worksheet' = ws_name worksheet
  /\ ws_options worksheet' = ws_options worksheet
  /\ exists new, ws_calls worksheet' = new ++ ws_calls worksheet
                 /\ Forall P new.

(** An assignment to a cell, or a merge of cells. *)
Definition cellWrite (c : call) : Prop :=
  match c with
  | CellValue _ _ | RowCellValue _ _ _ | MergeCells _ => True
  | RowFont _ _ | ColumnWidth _ _ | ColumnAlignment _ _ => False
  end.

(** An assignment to the font of a row or to the width or alignment of
    a column. *)
Definition formatWrite (c : call) : Prop :=
  match c with
  | RowFont _ _ | ColumnWidth _ _ | ColumnAlignment _ _ => True
  | CellValue _ _ | RowCellValue _ _ _ | MergeCells _ => False
  end.

(** The row number [row] is among [rows]. *)
Definition listsRow (rows : list value) (row : Z) : bool :=
  existsb (fun x => match x with
                    | VNum row' => row' =? row
                    | _ => false
                    end) rows.

(** ** Entries of complex headers *)

(** The entry has a truthy [cell], or a truthy [from] and a truthy
    [to]. *)
Definition namesCellOrRange (header : value) : bool :=
  match getProp header (lit "cell"),
        getProp header (lit "from"),
        getProp header (lit "to") with
  | Normal cell, Normal from, Normal to =>
      truthy cell || (truthy from && truthy to)
  | _, _, _ => false
  end.

(** The entry is an object whose [from] and [to], where it has them, are
    strings. *)
Definition stringRange (header : value) : Prop :=
  exists ps, header = VObj ps
             /\ (forall v, assoc (lit "from") ps = Some v -> exists s, v = VStr s)
             /\ (forall v, assoc (lit "to") ps = Some v -> exists s, v = VStr s).

(** ** Computations that throw *)

(** [m] throws from every state. *)
Definition alwaysThrows {S A} (m : M S A) : Prop :=
  forall s, exists e, snd (m s) = Throw e.

(** ** Specifications of computations

    [hoare P m Q E]: from a state in [P], [m] completes normally with a
    result and state in [Q], or throws an exception with a state in
    [E]. *)

Definition hoare {S A} (P : S -> Prop) (m : M S A)
           (Q : A -> S -> Prop) (E : exn -> S -> Prop) : Prop :=
  forall s, P s ->
            match m s with
            | (s', Normal a) => Q a s'
            | (s', Throw e) => E e s'
            end.

(** What [createBuffer] gives every worksheet it adds. *)
Definition plainSheet (worksheet : Worksheet) : Prop :=
  ws_name worksheet = VUndefined /\ ws_options worksheet = pageSetupOptions.

(** The workbook holds [n] worksheets, all as [createBuffer] adds them. *)
Definition sheets (n : nat) (workbook : Workbook) : Prop :=
  length workbook = n /\ Forall plainSheet workbook.

(** A throw of the runtime, with the worksheets as [createBuffer] adds
    them. *)
Definition typeErrorIn (e : exn) (workbook : Workbook) : Prop :=
  e = TypeError /\ Forall plainSheet workbook.

(** ** Example inputs *)

Definition emptySheet : Worksheet := mkWorksheet VUndefined pageSetupOptions [].

Definition headerData (name : jsstring) (width : Z) : value :=
  VObj [(lit "name", VStr name); (lit "width", VNum width)].

(** [{id: {name: "ID", width: 10}, label: {name: "Label", width: 20}}] *)
Definition idLabelHeaders : value :=
  VObj [(lit "id", headerData (lit "ID") 10);
        (lit "label", headerData (lit "Label") 20)].

(** [[{id: 1, label: "a"}, {id: 2, label: "b"}]] *)
Definition idLabelData : value :=
  VArr [VObj [(lit "id", VNum 1); (lit "label", VStr (lit "a"))];
        VObj [(lit "id", VNum 2); (lit "label", VStr (lit "b"))]].

(** The headers [{f0: {name: "H0", width: 10}, ..., f26: {name: "H26",
    width: 10}}], of 27 fields, and a row [{f0: 0, ..., f26: 26}]. *)
Definition wideHeaders : value :=
  VObj (map (fun i => (lit "f" ++ decimal i, headerData (lit "H" ++ decimal i) 10))
            (map Z.of_nat (seq 0 27))).

Definition wideRow : value :=
  VObj (map (fun i => (lit "f" ++ decimal i, VNum i))
            (map Z.of_nat (seq 0 27))).

(** ** The sheet of one header object and one data array *)

Definition nullish (v : value) : bool :=
  match v with
  | VUndefined | VNull => true
  | _ => false
  end.

(** The property read [v[k]] of a value that is not [undefined] or
    [null], which does not throw. *)
Definition propOf (v : value) (k : jsstring) : value :=
  match getProp v k with
  | Normal x => x
  | Throw _ => VUndefined
  end.

(** The worksheet the functions of the module make of the headers
    [sheetHeaders] (an object, by its properties) and the rows [rows]:
    [makeRowsBold], [setHeaders], [setColumnWidths], then [addDataRow]
    row after row. *)
Definition sheetOf (sheetHeaders : list (jsstring * value))
           (rows : list value) : Worksheet :=
  let fieldNames := map fst sheetHeaders in
  let items := map snd sheetHeaders in
  forEach (fun worksheet dataItem index =>
             addDataRow worksheet (2 + index)
                        (map (fun field => propOf dataItem field) fieldNames))
          rows
          (setColumnWidths
             (setHeaders (makeRowsBold emptySheet (VArr [VNum 1]))
                         (map (fun item => propOf item (lit "name")) items))
             (map (fun item => propOf item (lit "width")) items)).

Definition sheetFor (sheetHeaders sheetData : value) : Worksheet :=
  match sheetHeaders, sheetData with
  | VObj hps, VArr rows => sheetOf hps rows
  | _, _ => emptySheet
  end.

(** The headers are an object of values that are not [undefined] or
    [null], and the data an array of such values. *)
Definition wellFormed (sheetHeaders sheetData : value) : Prop :=
  exists hps rows,
    sheetHeaders = VObj hps /\ sheetData = VArr rows
    /\ Forall (fun p => nullish (snd p) = false) hps
    /\ Forall (fun row => nullish row = false) rows.

(** ** Widths of named columns and alignments

    [setPartialColumnWidths], [alignColumns] and [alignRows] assign to
    the columns and rows of a worksheet, which they get by a name, a
    letter or a number.  For them a worksheet is the list of these
    assignments, most recent first, with the column or row as the
    function names it.  [worksheet.columnCount] and [worksheet.rowCount]
    are ExcelJS's to compute: the functions that read them take the
    number read as an argument. *)

Inductive styleCall :=
| ColumnWidthOf (column : value) (width : value)
    (* worksheet.getColumn(column).width = width *)
| ColumnAlignmentOf (column : value) (alignment : value)
    (* worksheet.getColumn(column).alignment = alignment *)
| RowAlignmentOf (row : Z) (alignment : value).
    (* worksheet.getRow(row).alignment = alignment *)

Definition Styles := list styleCall.

Fixpoint lastStyle {A} (sel : styleCall -> option A) (calls : Styles)
  : option A :=
  match calls with
  | [] => None
  | c :: older =>
      match sel c with
      | Some a => Some a
      | None => lastStyle sel older
      end
  end.

(** The width last given to the column got by the string [name]. *)
Definition columnWidthOf (worksheet : Styles) (name : jsstring)
  : option value :=
  lastStyle (fun c => match c with
                      | ColumnWidthOf (VStr name') w =>
                          if jsstring_eqb name' name then Some w else None
                      | _ => None
                      end) worksheet.

Definition columnAlignmentOf (worksheet : Styles) (name : jsstring)
  : option value :=
  lastStyle (fun c => match c with
                      | ColumnAlignmentOf (VStr name') a =>
                          if jsstring_eqb name' name then Some a else None
                      | _ => None
                      end) worksheet.

Definition rowAlignment (worksheet : Styles) (row : Z) : option value :=
  lastStyle (fun c => match c with
                      | RowAlignmentOf row' a =>
                          if row' =? row then Some a else None
                      | _ => None
                      end) worksheet.

(** *** Iteration by [for ... of] *)

Definition isHighSurrogate (c : Z) : bool := (55296 <=? c) && (c <=? 56319).
Definition isLowSurrogate (c : Z) : bool := (56320 <=? c) && (c <=? 57343).

(** The code points of a string, each as a string of one or two code
    units. *)
Fixpoint codePoints (s : jsstring) : list jsstring :=
  match s with
  | [] => []
  | c :: rest =>
      match rest with
      | d :: rest' =>
          if isHighSurrogate c && isLowSurrogate d
          then [c; d] :: codePoints rest'
          else [c] :: codePoints rest
      | [] => [[c]]
      end
  end.

(** The values [for (const x of v)] goes through: the elements of an
    array, the code points of a string; nothing else here is iterable. *)
Definition iterate (v : value) : completion (list value) :=
  match v with
  | VArr xs => Normal xs
  | VStr s => Normal (map VStr (codePoints s))
  | _ => Throw TypeError
  end.

Fixpoint forOf {S} (body : value -> M S unit) (xs : list value) : M S unit :=
  match xs with
  | [] => ret tt
  | x :: xs' => body x ;;; forOf body xs'
  end.

(** *** [setPartialColumnWidths]

    The loop assigns the column to [column], which the function does not
    declare: the assignment makes, or sets, the global variable
    [column].  The state is the worksheet and this variable, holding the
    column by the name it was got by ([None]: not set). *)
(** The body of the [forEach] of [setPartialColumnWidths], for one
    item. *)
Definition setPartialColumnWidth (item : value)
  : M (Styles * option value) unit :=
  columns <- lift (getProp item (lit "columns")) ;;
  colNames <- lift (iterate columns) ;;
  forOf (fun colName =>
           width <- lift (getProp item (lit "width")) ;;
           modify (fun state : Styles * option value =>
                     (ColumnWidthOf colName width :: fst state, Some colName)))
        colNames.

Definition setPartialColumnWidths (widths : list value)
  : M (Styles * option value) unit :=
  forEachM (fun item _ => setPartialColumnWidth item) widths.

(** *** [alignColumns] *)

Definition centered : value :=
  VObj [(lit "vertical", VStr (lit "middle"));
        (lit "horizontal", VStr (lit "center"))].

(** [totalColumns] is what [worksheet.columnCount] reads. *)
Definition alignColumns (totalColumns : Z) (specialCells : value)
  : M Styles unit :=
  let specialCells :=
    match specialCells with
    | VUndefined => VObj []
    | _ => specialCells
    end in
  forLoop (Z.to_nat totalColumns) 1
          (fun columnIndex =>
             let columnLetter := getExcelColumnLetter columnIndex in
             specialAlignment <- lift (getProp specialCells columnLetter) ;;
             modify (cons (ColumnAlignmentOf
                             (VStr columnLetter)
                             (if truthy specialAlignment then specialAlignment
                              else centered)))).

(** *** [alignRows] *)

(** [for (let i = ...; ...; i++) body] for a body that does not throw,
    with [n] iterations to go. *)
Fixpoint forRange {S} (n : nat) (i : Z) (body : Z -> S -> S) (s : S) : S :=
  match n with
  | O => s
  | S n' => forRange n' (i + 1) body (body i s)
  end.

(** [rowCount] is what [worksheet.rowCount] reads; [rowTo] is a number,
    or [None] when it is not given. *)
Definition alignRows (worksheet : Styles) (rowCount : Z) (alignment : value)
           (rowTo : option Z) : Styles :=
  let rowTo :=
    match rowTo with
    | Some n => if n =? 0 then rowCount else n
    | None => rowCount
    end in
  forRange (Z.to_nat rowTo) 1
           (fun rowNumber worksheet =>
              RowAlignmentOf rowNumber alignment :: worksheet)
           worksheet.

(** The numbers [i], [i + 1], ..., [i + n - 1] a loop counts through. *)
Definition countFrom (i : Z) (n : nat) : list Z :=
  map (fun k => i + Z.of_nat k) (seq 0 n).

(** The columns an item of [setPartialColumnWidths] lists, when its
    [columns] is an array. *)
Definition columnsOf (item : value) : list value :=
  match getProp item (lit "columns") with
  | Normal (VArr xs) => xs
  | _ => []
  end.

(** The string [name] is among the values [columns]. *)
Definition listsColumn (columns : list value) (name : jsstring) : bool :=
  existsb (fun x => match x with
                    | VStr name' => jsstring_eqb name' name
                    | _ => false
                    end) columns.

(** * Properties *)

(** ** Column letters *)

Lemma letter_loop_step (colIndex : Z) (letter : jsstring) :
  getExcelColumnLetter_loop colIndex letter =
  if 0 <? colIndex
  then getExcelColumnLetter_loop
         ((colIndex - 1) / 26)
         (fromCharCode (65 + (colIndex - 1) mod 26) ++ letter)
  else letter.
Proof.
  rewrite getExcelColumnLetter_loop_equation_1.
  destruct (Z_gt_le_dec colIndex 0) as [Hgt | Hle]; simpl.
  - destruct (Z.ltb_spec 0 colIndex); [reflexivity | lia].
  - destruct (Z.ltb_spec 0 colIndex); [lia | reflexivity].
Qed.

Lemma letter_loop_acc (n : Z) :
  0 <= n ->
  forall acc, getExcelColumnLetter_loop n acc
              = getExcelColumnLetter_loop n [] ++ acc.
Proof.
  intros Hn. pattern n. apply Z_lt_induction; [| exact Hn].
  clear n Hn. intros n IH acc.
  rewrite (letter_loop_step n acc), (letter_loop_step n []).
  destruct (Z.ltb_spec 0 n) as [Hpos | Hnpos]; [| reflexivity].
  assert (Hq : 0 <= (n - 1) / 26 < n).
  { split; [apply Z.div_pos; lia | apply Z.div_lt_upper_bound; lia]. }
  rewrite (IH _ Hq (_ ++ acc)), (IH _ Hq (_ ++ [])).
  rewrite app_nil_r, <- app_assoc. reflexivity.
Qed.

Lemma getExcelColumnLetter_nonpos (n : Z) :
  n <= 0 -> getExcelColumnLetter n = [].
Proof.
  intros Hn. unfold getExcelColumnLetter. rewrite letter_loop_step.
  destruct (Z.ltb_spec 0 n); [lia | reflexivity].
Qed.

Lemma getExcelColumnLetter_step (n : Z) :
  0 < n ->
  getExcelColumnLetter n
  = getExcelColumnLetter ((n - 1) / 26) ++ fromCharCode (65 + (n - 1) mod 26).
Proof.
  intros Hn. unfold getExcelColumnLetter at 1. rewrite letter_loop_step.
  destruct (Z.ltb_spec 0 n); [| lia].
  rewrite app_nil_r. apply letter_loop_acc. apply Z.div_pos; lia.
Qed.

Lemma fromCharCode_small (c : Z) :
  0 <= c < 65536 -> fromCharCode c = [c].
Proof.
  intros Hc. unfold fromCharCode. rewrite Z.mod_small by exact Hc. reflexivity.
Qed.

Lemma letter_digit (n : Z) :
  fromCharCode (65 + (n - 1) mod 26) = [65 + (n - 1) mod 26].
Proof.
  apply fromCharCode_small.
  pose proof (Z.mod_pos_bound (n - 1) 26). lia.
Qed.

Lemma columnNumber_snoc (s : jsstring) (c : Z) :
  columnNumber (s ++ [c]) = columnNumber s * 26 + (c - 64).
Proof.
  unfold columnNumber. rewrite fold_left_app. reflexivity.
Qed.

(** Reading the label back gives the index. *)
Lemma columnNumber_getExcelColumnLetter (n : Z) :
  0 <= n -> columnNumber (getExcelColumnLetter n) = n.
Proof.
  intros Hn. generalize Hn. pattern n. apply Z_lt_induction; [| exact Hn].
  clear n Hn. intros n IH Hn.
  destruct (Z.eq_dec n 0) as [-> | Hne]; [reflexivity |].
  rewrite getExcelColumnLetter_step, letter_digit by lia.
  rewrite columnNumber_snoc.
  assert (Hq : 0 <= (n - 1) / 26 < n).
  { split; [apply Z.div_pos; lia | apply Z.div_lt_upper_bound; lia]. }
  rewrite IH by (exact Hq || apply Hq).
  pose proof (Z.div_mod (n - 1) 26 ltac:(lia)). lia.
Qed.

Lemma getExcelColumnLetter_injective (n m : Z) :
  0 <= n -> 0 <= m ->
  getExcelColumnLetter n = getExcelColumnLetter m -> n = m.
Proof.
  intros Hn Hm Heq.
  rewrite <- (columnNumber_getExcelColumnLetter n Hn).
  rewrite <- (columnNumber_getExcelColumnLetter m Hm).
  rewrite Heq. reflexivity.
Qed.

Lemma getExcelColumnLetter_letters (n : Z) :
  0 <= n -> Forall (fun c => isUpperLetter c = true) (getExcelColumnLetter n).
Proof.
  intros Hn. generalize Hn. pattern n. apply Z_lt_induction; [| exact Hn].
  clear n Hn. intros n IH Hn.
  destruct (Z.eq_dec n 0) as [-> | Hne]; [constructor |].
  rewrite getExcelColumnLetter_step, letter_digit by lia.
  assert (Hq : 0 <= (n - 1) / 26 < n).
  { split; [apply Z.div_pos; lia | apply Z.div_lt_upper_bound; lia]. }
  apply Forall_app. split; [apply IH; [exact Hq | apply Hq] |].
  constructor; [| constructor].
  unfold isUpperLetter. pose proof (Z.mod_pos_bound (n - 1) 26).
  apply andb_true_iff. split; apply Z.leb_le; lia.
Qed.

Lemma getExcelColumnLetter_length (n : Z) :
  0 < n -> (0 < length (getExcelColumnLetter n))%nat.
Proof.
  intros Hn. rewrite getExcelColumnLetter_step, letter_digit by exact Hn.
  rewrite length_app. simpl. lia.
Qed.

Lemma lex_ltb_snoc_same (p : jsstring) (a b : Z) :
  lex_ltb (p ++ [a]) (p ++ [b]) = (a <? b).
Proof.
  induction p as [| c p IH]; simpl.
  - rewrite andb_false_r, orb_false_r. reflexivity.
  - rewrite Z.ltb_irrefl, Z.eqb_refl. simpl. exact IH.
Qed.

Lemma lex_ltb_snoc (s t : jsstring) (a b : Z) :
  length s = length t ->
  lex_ltb s t = true -> lex_ltb (s ++ [a]) (t ++ [b]) = true.
Proof.
  revert t. induction s as [| c s IH]; intros [| d t] Hlen Hlt;
    simpl in *; try discriminate.
  apply orb_true_iff in Hlt. apply orb_true_iff.
  destruct Hlt as [Hlt | Hlt]; [left; exact Hlt | right].
  apply andb_true_iff in Hlt. destruct Hlt as [Heq Hlt].
  apply andb_true_iff. split; [exact Heq |].
  apply IH; [lia | exact Hlt].
Qed.

Lemma label_ltb_snoc (s t : jsstring) (a b : Z) :
  label_ltb s t = true -> label_ltb (s ++ [a]) (t ++ [b]) = true.
Proof.
  unfold label_ltb. rewrite !length_app. simpl length.
  intros H. apply orb_true_iff in H. apply orb_true_iff.
  destruct H as [H | H].
  - left. apply Z.ltb_lt in H. apply Z.ltb_lt. lia.
  - right. apply andb_true_iff in H. destruct H as [Hlen Hlex].
    apply Z.eqb_eq in Hlen. apply andb_true_iff. split.
    + apply Z.eqb_eq. lia.
    + apply lex_ltb_snoc; [lia | exact Hlex].
Qed.

(** A larger index has the later label. *)
Lemma getExcelColumnLetter_increasing (m : Z) :
  0 <= m ->
  forall n, 0 <= n < m ->
  label_ltb (getExcelColumnLetter n) (getExcelColumnLetter m) = true.
Proof.
  intros Hm. generalize Hm. pattern m. apply Z_lt_induction; [| exact Hm].
  clear m Hm. intros m IH Hm n Hn.
  destruct (Z.eq_dec n 0) as [-> | Hne].
  - pose proof (getExcelColumnLetter_length m ltac:(lia)) as Hlen.
    unfold label_ltb. rewrite (getExcelColumnLetter_nonpos 0) by lia.
    apply orb_true_iff. left. apply Z.ltb_lt. simpl length. lia.
  - rewrite (getExcelColumnLetter_step n), (getExcelColumnLetter_step m),
      !letter_digit by lia.
    assert (Hqm : 0 <= (m - 1) / 26 < m).
    { split; [apply Z.div_pos; lia | apply Z.div_lt_upper_bound; lia]. }
    assert (Hqn : 0 <= (n - 1) / 26) by (apply Z.div_pos; lia).
    assert (Hle : (n - 1) / 26 <= (m - 1) / 26)
      by (apply Z.div_le_mono; lia).
    destruct (Z.eq_dec ((n - 1) / 26) ((m - 1) / 26)) as [Heq | Hneq].
    + rewrite Heq. unfold label_ltb. rewrite !length_app. simpl length.
      rewrite Z.eqb_refl, lex_ltb_snoc_same.
      apply orb_true_iff. right. apply andb_true_iff.
      split; [reflexivity |]. apply Z.ltb_lt.
      pose proof (Z.div_mod (n - 1) 26 ltac:(lia)) as Dn.
      pose proof (Z.div_mod (m - 1) 26 ltac:(lia)) as Dm.
      rewrite Heq in Dn. lia.
    + apply label_ltb_snoc. apply IH; [exact Hqm | apply Hqm | lia].
Qed.

(** C3.  For every index from 1 to 1000 [getExcelColumnLetter] gives a
    label of its own (two indices with one label are equal), a larger
    index has the later label in the spreadsheet ordering A, B, ..., Z,
    AA, AB, ..., and the label is what the loop of the description
    computes: the letter for [(index - 1) mod 26] put in front of what was
    built, then [index = floor((index - 1) / 26)], until [index] is 0.
    The label is the bijective base-26 numeral of the index, and the
    labels of 1, 26, 27, 702 and 703 are A, Z, AA, ZZ and AAA. *)
Theorem getExcelColumnLetter_bijective_base26 (n m : Z)
        (Hn : 1 <= n <= 1000) (Hm : 1 <= m <= 1000) :
  (getExcelColumnLetter n = getExcelColumnLetter m -> n = m)
  /\ (n < m ->
      label_ltb (getExcelColumnLetter n) (getExcelColumnLetter m) = true)
  /\ getExcelColumnLetter n
     = getExcelColumnLetter ((n - 1) / 26)
       ++ fromCharCode (65 + (n - 1) mod 26)
  /\ getExcelColumnLetter 0 = []
  /\ columnNumber (getExcelColumnLetter n) = n
  /\ Forall (fun c => isUpperLetter c = true) (getExcelColumnLetter n)
  /\ getExcelColumnLetter 1 = lit "A"
  /\ getExcelColumnLetter 26 = lit "Z"
  /\ getExcelColumnLetter 27 = lit "AA"
  /\ getExcelColumnLetter 702 = lit "ZZ"
  /\ getExcelColumnLetter 703 = lit "AAA".
Proof.
  split; [apply getExcelColumnLetter_injective; lia |].
  split; [intros Hlt; apply getExcelColumnLetter_increasing; lia |].
  split; [apply getExcelColumnLetter_step; lia |].
  split; [apply getExcelColumnLetter_nonpos; lia |].
  split; [apply columnNumber_getExcelColumnLetter; lia |].
  split; [apply getExcelColumnLetter_letters; lia |].
  repeat split; vm_compute; reflexivity.
Qed.

Lemma getExcelColumnLetter_bijective_base26_witness :
  1 <= 26 <= 1000 /\ 1 <= 27 <= 1000
  /\ label_ltb (getExcelColumnLetter 26) (getExcelColumnLetter 27) = true.
Proof.
  split; [lia |]. split; [lia |].
  apply (proj1 (proj2 (getExcelColumnLetter_bijective_base26
                         26 27 ltac:(lia) ltac:(lia)))).
  lia.
Defined.

(** ** [forEach] over a worksheet *)

Lemma forEach_from_app {S} (body : S -> value -> Z -> S)
      (xs ys : list value) (i : Z) (s : S) :
  forEach_from body i (xs ++ ys) s
  = forEach_from body (i + Z.of_nat (length xs)) ys (forEach_from body i xs s).
Proof.
  revert i s. induction xs as [| x xs IH]; intros i s; simpl.
  - f_equal. lia.
  - rewrite IH. f_equal. lia.
Qed.

Lemma forEach_snoc {S} (body : S -> value -> Z -> S)
      (xs : list value) (x : value) (s : S) :
  forEach body (xs ++ [x]) s
  = body (forEach body xs s) x (Z.of_nat (length xs)).
Proof.
  unfold forEach. rewrite forEach_from_app. reflexivity.
Qed.

(** A [forEach] whose body makes one assignment per element makes them
    in the order of the elements. *)
Lemma forEach_from_record (mk : value -> Z -> call)
      (xs : list value) (i : Z) (worksheet : Worksheet) :
  ws_calls (forEach_from (fun ws x j => record (mk x j) ws) i xs worksheet)
  = rev (map (fun p => mk (snd p) (fst p)) (indexed_from i xs))
    ++ ws_calls worksheet.
Proof.
  revert i worksheet. induction xs as [| x xs IH]; intros i worksheet; simpl.
  - reflexivity.
  - rewrite IH. simpl. rewrite <- app_assoc. reflexivity.
Qed.

Lemma setHeaders_calls (worksheet : Worksheet) (headers : list value) :
  ws_calls (setHeaders worksheet headers)
  = rev (map (fun p => CellValue (VStr (fromCharCode (65 + fst p) ++ lit "1"))
                                 (snd p))
             (indexed_from 0 headers))
    ++ ws_calls worksheet.
Proof.
  unfold setHeaders, forEach.
  apply (forEach_from_record
           (fun header index =>
              CellValue (VStr (fromCharCode (65 + index) ++ lit "1")) header)).
Qed.

Lemma addDataRow_calls (worksheet : Worksheet) (rowIndex : Z)
      (data : list value) :
  ws_calls (addDataRow worksheet rowIndex data)
  = rev (map (fun p => RowCellValue rowIndex (fromCharCode (65 + fst p))
                                    (snd p))
             (indexed_from 0 data))
    ++ ws_calls worksheet.
Proof.
  unfold addDataRow, forEach.
  apply (forEach_from_record
           (fun item index =>
              RowCellValue rowIndex (fromCharCode (65 + index)) item)).
Qed.

(** ** Column widths *)

(** C8.  [setColumnWidths] gives the column with the 1-based index
    [k + 1] the width at the 0-based index [k] of the widths, and the
    alignment vertical middle, horizontal center, wrapText true. *)
Theorem setColumnWidths_width_and_alignment
        (worksheet : Worksheet) (widths : list value) (k : nat)
        (Hk : (k < length widths)%nat) :
  columnWidth (setColumnWidths worksheet widths) (Z.of_nat k + 1)
  = Some (nth k widths VUndefined)
  /\ columnAlignment (setColumnWidths worksheet widths) (Z.of_nat k + 1)
     = Some (VObj [(lit "vertical", VStr (lit "middle"));
                   (lit "horizontal", VStr (lit "center"));
                   (lit "wrapText", VBool true)]).
Proof.
  revert k Hk. induction widths as [| w widths IH] using rev_ind;
    intros k Hk; [simpl in Hk; lia |].
  rewrite length_app in Hk. simpl in Hk.
  unfold setColumnWidths. rewrite forEach_snoc.
  fold (setColumnWidths worksheet widths).
  unfold columnWidth, columnAlignment. simpl.
  destruct (Nat.eq_dec k (length widths)) as [-> | Hne].
  - rewrite Z.eqb_refl. rewrite nth_middle. split; reflexivity.
  - destruct (Z.eqb_spec (Z.of_nat (length widths) + 1) (Z.of_nat k + 1));
      [lia |].
    rewrite app_nth1 by lia.
    apply IH. lia.
Qed.

Lemma setColumnWidths_width_and_alignment_witness :
  columnWidth (setColumnWidths emptySheet
                               [VNum 10; VNum 20]) 2
  = Some (VNum 20).
Proof.
  apply (setColumnWidths_width_and_alignment
           emptySheet
           [VNum 10; VNum 20] 1).
  simpl. lia.
Defined.

(** ** The column of a cell: character code against column letter *)

Lemma charCode_is_letter (i : Z) :
  0 <= i < 26 -> fromCharCode (65 + i) = getExcelColumnLetter (i + 1).
Proof.
  intros Hi. rewrite getExcelColumnLetter_step by lia.
  replace (i + 1 - 1) with i by lia.
  rewrite Z.div_small, Z.mod_small by lia.
  rewrite getExcelColumnLetter_nonpos by lia. reflexivity.
Qed.

Lemma getExcelColumnLetter_two_letters (i : Z) :
  26 <= i -> (2 <= length (getExcelColumnLetter (i + 1)))%nat.
Proof.
  intros Hi. rewrite getExcelColumnLetter_step, letter_digit by lia.
  rewrite length_app. simpl.
  assert (Hq : 0 < (i + 1 - 1) / 26).
  { replace (i + 1 - 1) with i by lia.
    apply Z.div_str_pos. lia. }
  pose proof (getExcelColumnLetter_length _ Hq). lia.
Qed.




(** ** Throws of the runtime *)

Lemma toString_throws (v : value) (e : exn) :
  toString v = Throw e -> e = TypeError.
Proof.
  revert e. induction v as [| | b | n | s | ps IH | xs IH]
    using value_nested_ind; intros e; simpl; try discriminate.
  - destruct b; discriminate.
  - destruct (assoc _ ps); [| discriminate].
    intros H. injection H as <-. reflexivity.
  - induction IH as [| x xs Hx Hxs IHxs]; [discriminate |].
    assert (Helt : forall e',
               match x with
               | VUndefined | VNull => Normal []
               | _ => toString x
               end = Throw e' -> e' = TypeError).
    { intros e'. destruct x; try discriminate; apply Hx. }
    destruct (match x with
              | VUndefined | VNull => Normal []
              | _ => toString x
              end) as [sx | ex].
    + destruct xs as [| y ys]; [discriminate |].
      match goal with
      | |- match ?j with _ => _ end = _ -> _ =>
          destruct j as [t | et] eqn:Hj
      end; [discriminate |].
      intros H. injection H as <-. apply IHxs. reflexivity.
    + intros H. injection H as <-. apply Helt. reflexivity.
Qed.

Lemma getProp_throws (v : value) (k : jsstring) (e : exn) :
  getProp v k = Throw e -> e = TypeError.
Proof.
  destruct v; simpl; try discriminate;
    try (intros H; injection H as <-; reflexivity);
    destruct (jsstring_eqb k (lit "length")); discriminate.
Qed.

Lemma ownProperties_throws (v : value) (e : exn) :
  ownProperties v = Throw e -> e = TypeError.
Proof.
  destruct v; simpl; try discriminate;
    intros H; injection H as <-; reflexivity.
Qed.

Lemma Object_values_throws (v : value) (e : exn) :
  Object_values v = Throw e -> e = TypeError.
Proof.
  unfold Object_values. destruct (ownProperties v) eqn:Hp; [discriminate |].
  intros H. injection H as <-. eapply ownProperties_throws. exact Hp.
Qed.

Lemma Object_keys_throws (v : value) (e : exn) :
  Object_keys v = Throw e -> e = TypeError.
Proof.
  unfold Object_keys. destruct (ownProperties v) eqn:Hp; [discriminate |].
  intros H. injection H as <-. eapply ownProperties_throws. exact Hp.
Qed.

Lemma mapC_throws {A B} (f : A -> completion B) (xs : list A) (e : exn) :
  (forall x e', f x = Throw e' -> e' = TypeError) ->
  mapC f xs = Throw e -> e = TypeError.
Proof.
  intros Hf. induction xs as [| x xs IH]; simpl; [discriminate |].
  destruct (f x) as [y | ex] eqn:Hx.
  - destruct (mapC f xs) as [ys | exs]; [discriminate |].
    intros H. injection H as <-. apply IH. reflexivity.
  - intros H. injection H as <-. eapply Hf. exact Hx.
Qed.

(** ** Complex headers *)

(** The three branches of the loop body of [setComplexHeaders]. *)
Lemma setComplexHeader_branches
      (worksheet : Worksheet) (header cell from to v : value) :
  getProp header (lit "cell") = Normal cell ->
  getProp header (lit "from") = Normal from ->
  getProp header (lit "to") = Normal to ->
  getProp header (lit "value") = Normal v ->
  setComplexHeader header worksheet
  = if truthy cell then (record (CellValue cell v) worksheet, Normal tt)
    else if truthy from && truthy to then mergeCells from to v worksheet
         else (worksheet, Throw (newError complexHeaderMessage header)).
Proof.
  intros Hcell Hfrom Hto Hv.
  unfold setComplexHeader, bind, lift, modify, throw.
  rewrite Hcell. destruct (truthy cell).
  - rewrite Hv. reflexivity.
  - rewrite Hfrom. destruct (truthy from); [| reflexivity].
    rewrite Hto. destruct (truthy to); [| reflexivity].
    rewrite Hv. reflexivity.
Qed.

Lemma mergeCells_strings (worksheet : Worksheet) (f t : jsstring) (v : value) :
  mergeCells (VStr f) (VStr t) v worksheet
  = (record (CellValue (VStr f) v)
            (record (MergeCells (f ++ lit ":" ++ t)) worksheet),
     Normal tt).
Proof. reflexivity. Qed.

Lemma mergeCells_throws (cellFrom cellTo v : value) (worksheet : Worksheet)
      (e : exn) :
  snd (mergeCells cellFrom cellTo v worksheet) = Throw e -> e = TypeError.
Proof.
  unfold mergeCells, bind, lift, modify.
  destruct (toString cellFrom) as [f | ef] eqn:Hf.
  - destruct (toString cellTo) as [t | et] eqn:Ht.
    + simpl. discriminate.
    + simpl. intros H. injection H as <-. eapply toString_throws. exact Ht.
  - simpl. intros H. injection H as <-. eapply toString_throws. exact Hf.
Qed.

(** Whatever the entry, the [Error] an entry is refused with carries the
    fixed message; of the entry at most its [cause] property is kept. *)
Lemma setComplexHeader_error_message
      (header : value) (worksheet : Worksheet)
      (message : jsstring) (cause : option value) :
  snd (setComplexHeader header worksheet) = Throw (ErrorObj message cause) ->
  message = complexHeaderMessage
  /\ cause = match header with
             | VObj ps => assoc (lit "cause") ps
             | _ => None
             end.
Proof.
  unfold setComplexHeader, bind, lift, modify, throw.
  destruct (getProp header (lit "cell")) as [cell | e1] eqn:Hcell.
  2:{ simpl. intros H. apply getProp_throws in Hcell. congruence. }
  destruct (truthy cell).
  - destruct (getProp header (lit "value")) as [v | e2] eqn:Hv.
    + simpl. discriminate.
    + simpl. intros H. apply getProp_throws in Hv. congruence.
  - destruct (getProp header (lit "from")) as [from | e3] eqn:Hfrom.
    2:{ simpl. intros H. apply getProp_throws in Hfrom. congruence. }
    destruct (truthy from).
    2:{ simpl. unfold newError. intros H. injection H as <- <-.
        split; reflexivity. }
    destruct (getProp header (lit "to")) as [to | e4] eqn:Hto.
    2:{ simpl. intros H. apply getProp_throws in Hto. congruence. }
    destruct (truthy to).
    2:{ simpl. unfold newError. intros H. injection H as <- <-.
        split; reflexivity. }
    destruct (getProp header (lit "value")) as [v | e5] eqn:Hv.
    2:{ simpl. intros H. apply getProp_throws in Hv. congruence. }
    intros H. apply mergeCells_throws in H. discriminate H.
Qed.



(** An entry with a truthy [cell] and a range: the cell is written, the
    range is not merged. *)
Example setComplexHeader_cell_and_range :
  let header := VObj [(lit "cell", VStr (lit "C3"));
                      (lit "from", VStr (lit "A1"));
                      (lit "to", VStr (lit "B1"));
                      (lit "value", VStr (lit "Title"))] in
  setComplexHeaders [header] emptySheet
  = (record (CellValue (VStr (lit "C3")) (VStr (lit "Title"))) emptySheet,
     Normal tt)
  /\ merged (fst (setComplexHeaders [header] emptySheet)) (lit "A1:B1") = false.
Proof. split; reflexivity. Qed.

(** The merge of the description: the range A1:B1 is merged and A1 holds
    the title. *)
Example setComplexHeaders_merge :
  let worksheet :=
    fst (setComplexHeaders [VObj [(lit "from", VStr (lit "A1"));
                                  (lit "to", VStr (lit "B1"));
                                  (lit "value", VStr (lit "Title"))]]
                           emptySheet) in
  merged worksheet (lit "A1:B1") = true
  /\ cellValue worksheet (lit "A") 1 = Some (VStr (lit "Title")).
Proof. split; reflexivity. Qed.

(** C5, at the entries the code fails on.  The entries [{value: "x"}] and
    [{value: "y", from: "A1"}] name neither a cell nor a range.  Both are
    refused, with the same error: its message is the fixed text and it
    has no cause, so nothing of the entry is in the error.  (The entry is
    handed to [Error] as its second argument, the options, of which only
    [cause] is read.) *)
Theorem setComplexHeaders_error_without_entry :
  setComplexHeaders [VObj [(lit "value", VStr (lit "x"))]] emptySheet
  = (emptySheet, Throw (ErrorObj complexHeaderMessage None))
  /\ setComplexHeaders [VObj [(lit "value", VStr (lit "y"));
                              (lit "from", VStr (lit "A1"))]] emptySheet
     = (emptySheet, Throw (ErrorObj complexHeaderMessage None))
  /\ complexHeaderMessage
     = lit "Either cell or from & to fields must be present in headers array objects:".
Proof. repeat split. Qed.

(** ** Rules for computations *)

Section Rules.
Context {S : Type}.
Variable E : exn -> S -> Prop.

Lemma hoare_ret {A} (P : S -> Prop) (a : A) (Q : A -> S -> Prop) :
  (forall s, P s -> Q a s) -> hoare P (ret a) Q E.
Proof. intros H s Hs. apply H. exact Hs. Qed.

Lemma hoare_bind {A B} (P : S -> Prop) (m : M S A) (Q : A -> S -> Prop)
      (k : A -> M S B) (R : B -> S -> Prop) :
  hoare P m Q E -> (forall a, hoare (Q a) (k a) R E) ->
  hoare P (bind m k) R E.
Proof.
  intros Hm Hk s Hs. unfold bind. specialize (Hm s Hs).
  destruct (m s) as [s' [a | e]]; [apply Hk |]; exact Hm.
Qed.

Lemma hoare_lift {A} (P : S -> Prop) (c : completion A) :
  (forall e s, c = Throw e -> P s -> E e s) ->
  hoare P (lift c) (fun _ => P) E.
Proof.
  intros H s Hs. unfold lift. destruct c as [a | e];
    [exact Hs | apply H; [reflexivity | exact Hs]].
Qed.

Lemma hoare_modify (P : S -> Prop) (f : S -> S) (Q : unit -> S -> Prop) :
  (forall s, P s -> Q tt (f s)) -> hoare P (modify f) Q E.
Proof. intros H s Hs. apply H. exact Hs. Qed.

Lemma hoare_throw {A} (P : S -> Prop) (e : exn) (Q : A -> S -> Prop) :
  (forall s, P s -> E e s) -> hoare P (throw e) Q E.
Proof. intros H s Hs. apply H. exact Hs. Qed.

Lemma hoare_forEachM_from (P : S -> Prop) (body : value -> Z -> M S unit)
      (xs : list value) (i : Z) :
  (forall x j, hoare P (body x j) (fun _ => P) E) ->
  hoare P (forEachM_from body i xs) (fun _ => P) E.
Proof.
  intros Hbody. revert i. induction xs as [| x xs IH]; intros i; simpl.
  - apply hoare_ret. trivial.
  - eapply hoare_bind; [apply Hbody | intros ?; apply IH].
Qed.

Lemma hoare_forLoop (P : nat -> S -> Prop) (body : Z -> M S unit)
      (n : nat) (k : nat) (i : Z) :
  (forall k' j, hoare (P k') (body j) (fun _ => P (Datatypes.S k')) E) ->
  hoare (P k) (forLoop n i body) (fun _ => P (k + n)%nat) E.
Proof.
  intros Hbody. revert k i. induction n as [| n IH]; intros k i; simpl.
  - apply hoare_ret. intros s Hs. rewrite Nat.add_0_r. exact Hs.
  - eapply hoare_bind; [apply Hbody |].
    intros ?. replace (k + Datatypes.S n)%nat with (Datatypes.S k + n)%nat by lia.
    apply IH.
Qed.
End Rules.

(** ** The worksheets [createBuffer] adds *)

Lemma record_plain (c : call) (worksheet : Worksheet) :
  plainSheet worksheet -> plainSheet (record c worksheet).
Proof. intros H. exact H. Qed.

Lemma forEach_from_plain (body : Worksheet -> value -> Z -> Worksheet)
      (xs : list value) (i : Z) (worksheet : Worksheet) :
  (forall ws x j, plainSheet ws -> plainSheet (body ws x j)) ->
  plainSheet worksheet -> plainSheet (forEach_from body i xs worksheet).
Proof.
  intros Hbody. revert i worksheet.
  induction xs as [| x xs IH]; intros i worksheet Hws; simpl.
  - exact Hws.
  - apply IH. apply Hbody. exact Hws.
Qed.

Lemma makeRowsBold_plain (worksheet : Worksheet) (rows : value) :
  plainSheet worksheet -> plainSheet (makeRowsBold worksheet rows).
Proof.
  unfold makeRowsBold. generalize (asArray rows). intros xs.
  revert worksheet. induction xs as [| x xs IH]; intros worksheet Hws; simpl.
  - exact Hws.
  - apply IH. apply record_plain. exact Hws.
Qed.

Lemma setHeaders_plain (worksheet : Worksheet) (headers : list value) :
  plainSheet worksheet -> plainSheet (setHeaders worksheet headers).
Proof.
  apply forEach_from_plain. intros ws x j Hws. apply record_plain. exact Hws.
Qed.

Lemma setColumnWidths_plain (worksheet : Worksheet) (widths : list value) :
  plainSheet worksheet -> plainSheet (setColumnWidths worksheet widths).
Proof.
  apply forEach_from_plain. intros ws x j Hws.
  apply record_plain, record_plain. exact Hws.
Qed.

Lemma addDataRow_plain (worksheet : Worksheet) (rowIndex : Z)
      (data : list value) :
  plainSheet worksheet -> plainSheet (addDataRow worksheet rowIndex data).
Proof.
  apply forEach_from_plain. intros ws x j Hws. apply record_plain. exact Hws.
Qed.

Lemma updateSheet_length (ref : sheetRef) (f : Worksheet -> Worksheet)
      (workbook : Workbook) :
  length (updateSheet ref f workbook) = length workbook.
Proof.
  revert ref. induction workbook as [| ws rest IH]; intros [| ref]; simpl;
    try reflexivity.
  rewrite IH. reflexivity.
Qed.

Lemma updateSheet_plain (ref : sheetRef) (f : Worksheet -> Worksheet)
      (workbook : Workbook) :
  (forall ws, plainSheet ws -> plainSheet (f ws)) ->
  Forall plainSheet workbook -> Forall plainSheet (updateSheet ref f workbook).
Proof.
  intros Hf. revert ref.
  induction workbook as [| ws rest IH]; intros [| ref] Hwb; simpl;
    try exact Hwb; inversion Hwb as [| ? ? Hws Hrest]; subst;
    constructor; auto.
Qed.

Lemma hoare_onSheet (n : nat) (ref : sheetRef) (f : Worksheet -> Worksheet) :
  (forall ws, plainSheet ws -> plainSheet (f ws)) ->
  hoare (sheets n) (onSheet ref f) (fun _ => sheets n) typeErrorIn.
Proof.
  intros Hf. apply hoare_modify. intros wb [Hlen Hplain]. split.
  - rewrite updateSheet_length. exact Hlen.
  - apply updateSheet_plain; assumption.
Qed.

Lemma hoare_addWorksheet (n : nat) :
  hoare (sheets n) (addWorksheet VUndefined)
        (fun _ => sheets (S n)) typeErrorIn.
Proof.
  intros wb [Hlen Hplain]. simpl. split.
  - rewrite length_app. simpl. lia.
  - apply Forall_app. split; [exact Hplain |].
    constructor; [split; reflexivity | constructor].
Qed.

Lemma hoare_lift_typeError {A} (n : nat) (c : completion A) :
  (forall e, c = Throw e -> e = TypeError) ->
  hoare (sheets n) (lift c) (fun _ => sheets n) typeErrorIn.
Proof.
  intros Hc. apply hoare_lift. intros e wb He [_ Hplain].
  split; [apply Hc; exact He | exact Hplain].
Qed.

(** One pass of the loop adds one worksheet; it has no name.  It can
    only throw a [TypeError]. *)
Lemma hoare_sheetBody (headers data : list value) (i : Z) (n : nat) :
  hoare (sheets n) (sheetBody headers data i)
        (fun _ => sheets (S n)) typeErrorIn.
Proof.
  unfold sheetBody.
  eapply hoare_bind; [apply hoare_addWorksheet | intros worksheet].
  eapply hoare_bind;
    [apply hoare_onSheet; intros ws; apply makeRowsBold_plain | intros ?].
  eapply hoare_bind;
    [apply hoare_lift_typeError; apply Object_values_throws | intros items].
  eapply hoare_bind;
    [apply hoare_lift_typeError; intros e; apply mapC_throws;
     intros x e'; apply getProp_throws | intros headerValues].
  eapply hoare_bind;
    [apply hoare_onSheet; intros ws; apply setHeaders_plain | intros ?].
  eapply hoare_bind;
    [apply hoare_lift_typeError; apply Object_values_throws | intros items'].
  eapply hoare_bind;
    [apply hoare_lift_typeError; intros e; apply mapC_throws;
     intros x e'; apply getProp_throws | intros columnWidths].
  eapply hoare_bind;
    [apply hoare_onSheet; intros ws; apply setColumnWidths_plain | intros ?].
  eapply hoare_bind;
    [apply hoare_lift_typeError; apply Object_keys_throws | intros fieldNames].
  assert (Hthrow : hoare (sheets (S n)) (throw TypeError)
                         (fun _ : unit => sheets (S n)) typeErrorIn).
  { apply hoare_throw. intros wb [_ Hplain]. split; [reflexivity | exact Hplain]. }
  destruct (arrayGet data i); try exact Hthrow.
  apply hoare_forEachM_from. intros dataItem index.
  eapply hoare_bind;
    [apply hoare_lift_typeError; intros e; apply mapC_throws;
     intros x e'; apply getProp_throws | intros values].
  apply hoare_onSheet. intros ws. apply addDataRow_plain.
Qed.

(** When [createBuffer] gets as far as a workbook: every worksheet is
    created without a name and with the page setup; a throw is a
    [TypeError]; and a buffer is that of a workbook with one worksheet
    per element of [headers]. *)
Lemma createBuffer_workbook (headers data worksheetNames : value)
      (workbook : Workbook) (result : completion Buffer) :
  createBuffer headers data worksheetNames = (Some workbook, result) ->
  Forall plainSheet workbook
  /\ match result with
     | Normal buffer =>
         buffer = Xlsx workbook
         /\ length workbook = length (asArray headers)
     | Throw e => e = TypeError
     end.
Proof.
  unfold createBuffer.
  destruct (sizeCheck _ _ _); [discriminate |].
  pose proof (hoare_forLoop typeErrorIn sheets
                (sheetBody (asArray headers) (asArray data))
                (length (asArray headers)) 0 0
                (fun k j => hoare_sheetBody _ _ j k) createWorkbook) as H.
  specialize (H (conj eq_refl (Forall_nil _))).
  destruct (forLoop _ _ _ _) as [wb [[] | e]]; intros Heq;
    injection Heq as <- <-.
  - destruct H as [Hlen Hplain]. split; [exact Hplain |].
    split; [reflexivity | exact Hlen].
  - destruct H as [He Hplain]. split; assumption.
Qed.

(** ** The size check of [createBuffer] *)

Lemma sizeCheck_spec (headers data worksheetNames : list value) :
  sizeCheck headers data worksheetNames = true
  <-> (if Nat.eq_dec (length headers) (length data) then 0%nat else 1%nat)
      <> length worksheetNames.
Proof.
  unfold sizeCheck, boolToNumber. rewrite negb_true_iff, Z.eqb_neq.
  destruct (Nat.eq_dec (length headers) (length data)) as [Heq | Hne].
  - rewrite Heq, Z.eqb_refl. simpl. lia.
  - destruct (Z.eqb_spec (Z.of_nat (length headers)) (Z.of_nat (length data)));
      [lia |].
    simpl. lia.
Qed.

(** Sequences of one size, not empty, are refused. *)
Lemma createBuffer_equal_sizes_refused (headers data worksheetNames : list value) :
  length headers = length data ->
  length data = length worksheetNames ->
  (0 < length headers)%nat ->
  createBuffer (VArr headers) (VArr data) (VArr worksheetNames)
  = (None, Throw (ErrorObj sizeMessage None)).
Proof.
  intros Hhd Hdn Hpos. unfold createBuffer. simpl asArray.
  assert (Hcheck : sizeCheck headers data worksheetNames = true).
  { apply sizeCheck_spec.
    destruct (Nat.eq_dec (length headers) (length data)); lia. }
  rewrite Hcheck. reflexivity.
Qed.

(** C1, at the inputs the code fails on.  One header object, one data
    array and one worksheet name, each in a sequence of length 1, are
    refused with the size error although the three lengths are equal; and
    headers of length 1 with data of length 2 and one worksheet name pass
    the check and give a buffer although the lengths differ.  (Lengths 2,
    2 and 1 are refused, as the claim says.) *)
Theorem createBuffer_size_check_not_equality :
  createBuffer (VArr [idLabelHeaders]) (VArr [idLabelData])
               (VArr [VStr (lit "Report")])
  = (None, Throw (ErrorObj sizeMessage None))
  /\ (exists workbook,
         createBuffer (VArr [idLabelHeaders]) (VArr [idLabelData; VArr []])
                      (VArr [VStr (lit "Report")])
         = (Some workbook, Normal (Xlsx workbook)))
  /\ createBuffer (VArr [idLabelHeaders; idLabelHeaders])
                  (VArr [idLabelData; idLabelData])
                  (VArr [VStr (lit "Report")])
     = (None, Throw (ErrorObj sizeMessage None)).
Proof.
  split; [reflexivity |]. split; [| reflexivity].
  eexists. vm_compute. reflexivity.
Qed.

(** ** Names of the worksheets *)

(** C4, at an input the code fails on.  For one header object, two data
    arrays and the worksheet name "Report" the call gives a buffer of one
    worksheet.  The worksheet has the page setup with paper size 9 and
    landscape orientation, but it was created without a name: its name is
    not the "Report" of [worksheetNames[0]]. *)
Theorem createBuffer_worksheet_without_name :
  exists worksheet,
    createBuffer (VArr [idLabelHeaders]) (VArr [idLabelData; VArr []])
                 (VArr [VStr (lit "Report")])
    = (Some [worksheet], Normal (Xlsx [worksheet]))
    /\ ws_name worksheet = VUndefined
    /\ arrayGet (asArray (VArr [VStr (lit "Report")])) 0 = VStr (lit "Report")
    /\ ws_name worksheet <> arrayGet (asArray (VArr [VStr (lit "Report")])) 0
    /\ ws_options worksheet
       = VObj [(lit "pageSetup",
                VObj [(lit "paperSize", VNum 9);
                      (lit "orientation", VStr (lit "landscape"))])].
Proof.
  eexists. split; [vm_compute; reflexivity |].
  repeat split. discriminate.
Qed.

(** ** A single data array *)

(** C6, at an input the code fails on.  The data array of the single
    call is an array, so it is not wrapped: its two rows are taken for
    two data arrays.  The size check passes, a worksheet is created, and
    the call throws a [TypeError] at [forEach] of the first row.  The
    call with the three values wrapped is refused with the size error,
    before a workbook is created. *)
Theorem createBuffer_single_data_array_not_wrapped :
  asArray idLabelData
  = [VObj [(lit "id", VNum 1); (lit "label", VStr (lit "a"))];
     VObj [(lit "id", VNum 2); (lit "label", VStr (lit "b"))]]
  /\ (exists worksheet,
         createBuffer idLabelHeaders idLabelData (VStr (lit "Report"))
         = (Some [worksheet], Throw TypeError))
  /\ createBuffer (VArr [idLabelHeaders]) (VArr [idLabelData])
                  (VArr [VStr (lit "Report")])
     = (None, Throw (ErrorObj sizeMessage None))
  /\ createBuffer idLabelHeaders idLabelData (VStr (lit "Report"))
     <> createBuffer (VArr [idLabelHeaders]) (VArr [idLabelData])
                     (VArr [VStr (lit "Report")]).
Proof.
  split; [reflexivity |].
  split; [eexists; vm_compute; reflexivity |].
  split; [reflexivity |].
  vm_compute. discriminate.
Qed.

(** ** Failure of the size check *)

(** C7.  When [createBuffer] throws the size error, the call has created
    no workbook, and so no worksheet: the error comes from the size
    check, which is made before [createWorkbook]. *)
Theorem createBuffer_size_error_before_workbook
        (headers data worksheetNames : value) (created : option Workbook)
        (Herror : createBuffer headers data worksheetNames
                  = (created, Throw (ErrorObj sizeMessage None))) :
  created = None
  /\ sizeCheck (asArray headers) (asArray data) (asArray worksheetNames) = true.
Proof.
  destruct created as [workbook |].
  - apply createBuffer_workbook in Herror. destruct Herror as [_ He].
    discriminate He.
  - split; [reflexivity |].
    unfold createBuffer in Herror.
    destruct (sizeCheck _ _ _); [reflexivity |].
    destruct (forLoop _ _ _ _) as [wb [[] | e]]; discriminate Herror.
Qed.

Lemma createBuffer_size_error_before_workbook_witness :
  fst (createBuffer (VArr [idLabelHeaders; idLabelHeaders])
                    (VArr [idLabelData; idLabelData])
                    (VArr [VStr (lit "Report")]))
  = None.
Proof.
  apply (proj1 (createBuffer_size_error_before_workbook
                  (VArr [idLabelHeaders; idLabelHeaders])
                  (VArr [idLabelData; idLabelData])
                  (VArr [VStr (lit "Report")])
                  (fst (createBuffer (VArr [idLabelHeaders; idLabelHeaders])
                                     (VArr [idLabelData; idLabelData])
                                     (VArr [VStr (lit "Report")])))
                  eq_refl)).
Defined.

(** ** Header and data cells *)

Lemma jsstring_eqb_eq (a b : jsstring) : jsstring_eqb a b = true <-> a = b.
Proof.
  unfold jsstring_eqb. destruct (list_eq_dec Z.eq_dec a b) as [Heq | Hne].
  - split; trivial.
  - split; [discriminate | contradiction].
Qed.

Lemma jsstring_eqb_neq (a b : jsstring) : a <> b -> jsstring_eqb a b = false.
Proof.
  intros Hne. destruct (jsstring_eqb a b) eqn:Heq; [| reflexivity].
  apply jsstring_eqb_eq in Heq. contradiction.
Qed.

Lemma jsstring_eqb_refl (a : jsstring) : jsstring_eqb a a = true.
Proof. apply jsstring_eqb_eq. reflexivity. Qed.

Lemma jsstring_eqb_head_neq (a b : Z) (s t : jsstring) :
  a <> b -> jsstring_eqb (a :: s) (b :: t) = false.
Proof.
  intros Hne. apply jsstring_eqb_neq. intros Heq.
  injection Heq as Heq _. contradiction.
Qed.

(** With at most 26 values, [addDataRow] puts the value at the 0-based
    index [k] into the column with the letter of [k + 1]. *)
Lemma addDataRow_cellValue (worksheet : Worksheet) (rowIndex : Z)
      (data : list value) (k : nat) :
  (length data <= 26)%nat -> (k < length data)%nat ->
  cellValue (addDataRow worksheet rowIndex data)
            (getExcelColumnLetter (Z.of_nat k + 1)) rowIndex
  = Some (nth k data VUndefined).
Proof.
  revert k. induction data as [| x data IH] using rev_ind;
    intros k Hlen Hk; [simpl in Hk; lia |].
  rewrite length_app in Hlen, Hk. simpl in Hlen, Hk.
  unfold addDataRow. rewrite forEach_snoc. fold (addDataRow worksheet rowIndex data).
  rewrite <- charCode_is_letter by lia.
  rewrite !fromCharCode_small by lia.
  unfold cellValue. cbn [ws_calls record lastAssigned].
  rewrite Z.eqb_refl. cbn [andb].
  destruct (Nat.eq_dec k (length data)) as [-> | Hne].
  - rewrite jsstring_eqb_refl, nth_middle. reflexivity.
  - rewrite jsstring_eqb_head_neq by lia.
    rewrite app_nth1 by lia.
    specialize (IH k ltac:(lia) ltac:(lia)).
    rewrite <- charCode_is_letter, fromCharCode_small in IH by lia.
    exact IH.
Qed.

(** With at most 26 headers, [setHeaders] puts the header at the 0-based
    index [k] into row 1 of the column with the letter of [k + 1]. *)
Lemma setHeaders_cellValue (worksheet : Worksheet) (headers : list value)
      (k : nat) :
  (length headers <= 26)%nat -> (k < length headers)%nat ->
  cellValue (setHeaders worksheet headers)
            (getExcelColumnLetter (Z.of_nat k + 1)) 1
  = Some (nth k headers VUndefined).
Proof.
  revert k. induction headers as [| x headers IH] using rev_ind;
    intros k Hlen Hk; [simpl in Hk; lia |].
  rewrite length_app in Hlen, Hk. simpl in Hlen, Hk.
  unfold setHeaders. rewrite forEach_snoc. fold (setHeaders worksheet headers).
  rewrite <- charCode_is_letter by lia.
  rewrite !fromCharCode_small by lia.
  unfold cellValue. cbn [ws_calls record lastAssigned].
  change (decimal 1) with (lit "1").
  destruct (Nat.eq_dec k (length headers)) as [-> | Hne].
  - rewrite jsstring_eqb_refl, nth_middle. reflexivity.
  - cbn [app]. rewrite jsstring_eqb_head_neq by lia.
    rewrite app_nth1 by lia.
    specialize (IH k ltac:(lia) ltac:(lia)).
    rewrite <- charCode_is_letter, fromCharCode_small in IH by lia.
    exact IH.
Qed.

(** The sheet of the description: the labels ID and Label in row 1, the
    two rows under them, row 1 bold, and the widths 10 and 20. *)
Example createBuffer_id_label_sheet :
  exists worksheet,
    createBuffer (VArr [idLabelHeaders]) (VArr [idLabelData]) (VArr [])
    = (Some [worksheet], Normal (Xlsx [worksheet]))
    /\ map (fun col => cellValue worksheet col 1) [lit "A"; lit "B"; lit "C"]
       = [Some (VStr (lit "ID")); Some (VStr (lit "Label")); None]
    /\ map (fun col => cellValue worksheet col 2) [lit "A"; lit "B"; lit "C"]
       = [Some (VNum 1); Some (VStr (lit "a")); None]
    /\ map (fun col => cellValue worksheet col 3) [lit "A"; lit "B"; lit "C"]
       = [Some (VNum 2); Some (VStr (lit "b")); None]
    /\ cellValue worksheet (lit "A") 4 = None
    /\ rowFont worksheet 1 = Some (VObj [(lit "bold", VBool true)])
    /\ rowFont worksheet 2 = None
    /\ map (columnWidth worksheet) [1; 2; 3]
       = [Some (VNum 10); Some (VNum 20); None].
Proof.
  eexists. split; [vm_compute; reflexivity |].
  repeat split.
Qed.


(** * Further properties *)

(** ** Column letters of every index *)

Lemma lastIndexOfLength_succ (k : nat) :
  lastIndexOfLength (S k) = 26 * (lastIndexOfLength k + 1).
Proof. reflexivity. Qed.

Lemma lastIndexOfLength_nonneg (k : nat) : 0 <= lastIndexOfLength k.
Proof.
  induction k as [| k IH]; [simpl; lia |].
  rewrite lastIndexOfLength_succ. lia.
Qed.

Lemma lex_ltb_irrefl (s : jsstring) : lex_ltb s s = false.
Proof.
  induction s as [| a s IH]; simpl; [reflexivity |].
  rewrite Z.ltb_irrefl, Z.eqb_refl, IH. reflexivity.
Qed.

Lemma lex_ltb_asym (s t : jsstring) :
  lex_ltb s t = true -> lex_ltb t s = false.
Proof.
  revert t. induction s as [| a s IH]; intros [| b t]; simpl;
    try discriminate; try reflexivity.
  intros H. apply orb_true_iff in H. apply orb_false_iff.
  destruct H as [Hlt | Heq].
  - apply Z.ltb_lt in Hlt. split.
    + apply Z.ltb_ge. lia.
    + apply andb_false_iff. left. apply Z.eqb_neq. lia.
  - apply andb_true_iff in Heq. destruct Heq as [Heq Hlex].
    apply Z.eqb_eq in Heq. subst b. split.
    + apply Z.ltb_irrefl.
    + rewrite Z.eqb_refl. simpl. apply IH. exact Hlex.
Qed.

Lemma label_ltb_irrefl (s : jsstring) : label_ltb s s = false.
Proof.
  unfold label_ltb. rewrite Z.ltb_irrefl, Z.eqb_refl, lex_ltb_irrefl.
  reflexivity.
Qed.

Lemma label_ltb_asym (s t : jsstring) :
  label_ltb s t = true -> label_ltb t s = false.
Proof.
  unfold label_ltb. intros H. apply orb_true_iff in H. apply orb_false_iff.
  destruct H as [Hlt | Heq].
  - apply Z.ltb_lt in Hlt. split.
    + apply Z.ltb_ge. lia.
    + apply andb_false_iff. left. apply Z.eqb_neq. lia.
  - apply andb_true_iff in Heq. destruct Heq as [Heq Hlex].
    apply Z.eqb_eq in Heq. split.
    + apply Z.ltb_ge. lia.
    + apply andb_false_iff. right. apply lex_ltb_asym. exact Hlex.
Qed.








(** ** What the worksheet functions leave alone *)

Lemma extends_refl (P : call -> Prop) (worksheet : Worksheet) :
  extends P worksheet worksheet.
Proof.
  split; [reflexivity |]. split; [reflexivity |].
  exists []. split; [reflexivity | constructor].
Qed.

Lemma extends_trans (P : call -> Prop) (ws1 ws2 ws3 : Worksheet) :
  extends P ws1 ws2 -> extends P ws2 ws3 -> extends P ws1 ws3.
Proof.
  intros [Hn1 [Ho1 [new1 [Hc1 Hp1]]]] [Hn2 [Ho2 [new2 [Hc2 Hp2]]]].
  split; [congruence |]. split; [congruence |].
  exists (new2 ++ new1). split.
  - rewrite Hc2, Hc1, app_assoc. reflexivity.
  - apply Forall_app. split; assumption.
Qed.

Lemma extends_record (P : call -> Prop) (c : call) (worksheet : Worksheet) :
  P c -> extends P worksheet (record c worksheet).
Proof.
  intros Hc. split; [reflexivity |]. split; [reflexivity |].
  exists [c]. split; [reflexivity | constructor; [exact Hc | constructor]].
Qed.

Lemma extends_weaken (P Q : call -> Prop) (ws ws' : Worksheet) :
  (forall c, P c -> Q c) -> extends P ws ws' -> extends Q ws ws'.
Proof.
  intros HPQ [Hn [Ho [new [Hc Hp]]]].
  split; [exact Hn |]. split; [exact Ho |].
  exists new. split; [exact Hc |].
  eapply Forall_impl; [exact HPQ | exact Hp].
Qed.

Lemma forEach_from_extends (P : call -> Prop)
      (body : Worksheet -> value -> Z -> Worksheet)
      (xs : list value) (i : Z) (worksheet : Worksheet) :
  (forall ws x j, extends P ws (body ws x j)) ->
  extends P worksheet (forEach_from body i xs worksheet).
Proof.
  intros Hbody. revert i worksheet.
  induction xs as [| x xs IH]; intros i worksheet; simpl.
  - apply extends_refl.
  - eapply extends_trans; [apply Hbody | apply IH].
Qed.

Lemma lastAssigned_app {A} (sel : call -> option A) (new old : list call) :
  lastAssigned sel (new ++ old)
  = match lastAssigned sel new with
    | Some a => Some a
    | None => lastAssigned sel old
    end.
Proof.
  induction new as [| c new IH]; simpl; [reflexivity |].
  destruct (sel c); [reflexivity | exact IH].
Qed.

Lemma lastAssigned_none {A} (sel : call -> option A) (new : list call) :
  Forall (fun c => sel c = None) new -> lastAssigned sel new = None.
Proof.
  induction 1 as [| c new Hc Hnew IH]; simpl; [reflexivity |].
  rewrite Hc. exact IH.
Qed.

(** Assignments a selection does not see do not change what it finds. *)
Lemma extends_lastAssigned {A} (P : call -> Prop) (sel : call -> option A)
      (ws ws' : Worksheet) :
  (forall c, P c -> sel c = None) ->
  extends P ws ws' ->
  lastAssigned sel (ws_calls ws') = lastAssigned sel (ws_calls ws).
Proof.
  intros Hsel [_ [_ [new [Hc Hp]]]].
  rewrite Hc, lastAssigned_app, lastAssigned_none; [reflexivity |].
  eapply Forall_impl; [exact Hsel | exact Hp].
Qed.

Lemma extends_merged (P : call -> Prop) (ws ws' : Worksheet)
      (range : jsstring) :
  (forall c, P c -> match c with MergeCells _ => False | _ => True end) ->
  extends P ws ws' -> merged ws' range = merged ws range.
Proof.
  intros Hnot [_ [_ [new [Hc Hp]]]]. unfold merged.
  rewrite Hc, existsb_app. clear Hc.
  replace (existsb _ new) with false; [reflexivity |].
  symmetry. induction Hp as [| c new Hpc Hp IH]; simpl; [reflexivity |].
  rewrite IH.
  specialize (Hnot c Hpc). destruct c; try reflexivity. contradiction.
Qed.

Lemma makeRowsBold_extends (worksheet : Worksheet) (rows : value) :
  extends (fun c => exists row, c = RowFont row boldFont)
          worksheet (makeRowsBold worksheet rows).
Proof.
  unfold makeRowsBold. generalize (asArray rows). intros xs.
  revert worksheet. induction xs as [| x xs IH]; intros worksheet; simpl.
  - apply extends_refl.
  - eapply extends_trans; [| apply IH].
    apply extends_record. exists x. reflexivity.
Qed.

Lemma setColumnWidths_extends (worksheet : Worksheet) (widths : list value) :
  extends formatWrite worksheet (setColumnWidths worksheet widths).
Proof.
  apply forEach_from_extends. intros ws x j.
  eapply extends_trans; apply extends_record; exact I.
Qed.

Lemma setHeaders_extends (worksheet : Worksheet) (headers : list value) :
  extends cellWrite worksheet (setHeaders worksheet headers).
Proof.
  apply forEach_from_extends. intros ws x j. apply extends_record. exact I.
Qed.

Lemma addDataRow_extends (worksheet : Worksheet) (rowIndex : Z)
      (data : list value) :
  extends (fun c => exists col v, c = RowCellValue rowIndex col v)
          worksheet (addDataRow worksheet rowIndex data).
Proof.
  apply forEach_from_extends. intros ws x j. apply extends_record.
  eexists. eexists. reflexivity.
Qed.

(** X5.  [makeRowsBold] gives the rows it is given, as one row number or
    as an array of row numbers, the bold font; a row that is not among
    them keeps the font it had; and no cell value, merge, column width or
    column alignment changes. *)
Theorem makeRowsBold_rows (worksheet : Worksheet) (rows : value)
        (row col : Z) (column range : jsstring) :
  rowFont (makeRowsBold worksheet rows) row
  = (if listsRow (asArray rows) row then Some (VObj [(lit "bold", VBool true)])
     else rowFont worksheet row)
  /\ makeRowsBold worksheet (VNum row) = makeRowsBold worksheet (VArr [VNum row])
  /\ cellValue (makeRowsBold worksheet rows) column row
     = cellValue worksheet column row
  /\ merged (makeRowsBold worksheet rows) range = merged worksheet range
  /\ columnWidth (makeRowsBold worksheet rows) col = columnWidth worksheet col
  /\ columnAlignment (makeRowsBold worksheet rows) col
     = columnAlignment worksheet col.
Proof.
  split.
  { unfold makeRowsBold. generalize (asArray rows). intros xs.
    revert worksheet. induction xs as [| x xs IH]; intros worksheet;
      [reflexivity |].
    cbn [fold_left listsRow existsb]. rewrite IH. fold (listsRow xs row).
    destruct (listsRow xs row); [rewrite orb_true_r; reflexivity |].
    rewrite orb_false_r. unfold rowFont. cbn [ws_calls record lastAssigned].
    destruct x; try reflexivity.
    destruct (n =? row); reflexivity. }
  split; [reflexivity |].
  pose proof (makeRowsBold_extends worksheet rows) as Hext.
  split; [| split; [| split]].
  - unfold cellValue. eapply extends_lastAssigned; [| exact Hext].
    intros c [r ->]. reflexivity.
  - eapply extends_merged; [| exact Hext]. intros c [r ->]. exact I.
  - unfold columnWidth. eapply extends_lastAssigned; [| exact Hext].
    intros c [r ->]. reflexivity.
  - unfold columnAlignment. eapply extends_lastAssigned; [| exact Hext].
    intros c [r ->]. reflexivity.
Qed.

Lemma forEach_from_extends_indexed (P : call -> Prop)
      (body : Worksheet -> value -> Z -> Worksheet)
      (xs : list value) (i : Z) (worksheet : Worksheet) :
  (forall ws x j, i <= j < i + Z.of_nat (length xs) ->
                  extends P ws (body ws x j)) ->
  extends P worksheet (forEach_from body i xs worksheet).
Proof.
  revert i worksheet.
  induction xs as [| x xs IH]; intros i worksheet Hbody; simpl.
  - apply extends_refl.
  - apply (extends_trans P worksheet (body worksheet x i)).
    + apply Hbody. simpl length. lia.
    + apply IH. intros ws y j Hj. apply Hbody. simpl length. lia.
Qed.

Lemma setColumnWidths_extends_columns (worksheet : Worksheet)
      (widths : list value) :
  extends (fun c => exists col v,
               1 <= col <= Z.of_nat (length widths)
               /\ (c = ColumnWidth col v \/ c = ColumnAlignment col v))
          worksheet (setColumnWidths worksheet widths).
Proof.
  apply forEach_from_extends_indexed. intros ws x j Hj.
  eapply extends_trans; apply extends_record.
  - exists (j + 1), x. split; [lia | left; reflexivity].
  - exists (j + 1), defaultAlignment. split; [lia | right; reflexivity].
Qed.

(** X6.  [setColumnWidths] assigns to the columns 1 to the number of
    widths only: a column with another index keeps its width and its
    alignment.  It changes no cell value, no merge and no row font. *)
Theorem setColumnWidths_other_columns
        (worksheet : Worksheet) (widths : list value)
        (col row : Z) (column range : jsstring)
        (Hcol : col < 1 \/ Z.of_nat (length widths) < col) :
  columnWidth (setColumnWidths worksheet widths) col
  = columnWidth worksheet col
  /\ columnAlignment (setColumnWidths worksheet widths) col
     = columnAlignment worksheet col
  /\ cellValue (setColumnWidths worksheet widths) column row
     = cellValue worksheet column row
  /\ merged (setColumnWidths worksheet widths) range = merged worksheet range
  /\ rowFont (setColumnWidths worksheet widths) row = rowFont worksheet row.
Proof.
  pose proof (setColumnWidths_extends_columns worksheet widths) as Hcols.
  pose proof (setColumnWidths_extends worksheet widths) as Hext.
  split; [| split; [| split; [| split]]].
  - unfold columnWidth. eapply extends_lastAssigned; [| exact Hcols].
    intros c [col' [v [Hrange [-> | ->]]]]; [| reflexivity].
    destruct (Z.eqb_spec col' col); [lia | reflexivity].
  - unfold columnAlignment. eapply extends_lastAssigned; [| exact Hcols].
    intros c [col' [v [Hrange [-> | ->]]]]; [reflexivity |].
    destruct (Z.eqb_spec col' col); [lia | reflexivity].
  - unfold cellValue. eapply extends_lastAssigned; [| exact Hext].
    intros c Hc. destruct c; try reflexivity; contradiction.
  - eapply extends_merged; [| exact Hext].
    intros c Hc. destruct c; try exact I; contradiction.
  - unfold rowFont. eapply extends_lastAssigned; [| exact Hcols].
    intros c [col' [v [_ [-> | ->]]]]; reflexivity.
Qed.

Lemma setColumnWidths_other_columns_witness :
  columnWidth (setColumnWidths
                 (setColumnWidths emptySheet [VNum 10; VNum 20; VNum 30])
                 [VNum 5]) 3
  = columnWidth (setColumnWidths emptySheet [VNum 10; VNum 20; VNum 30]) 3.
Proof.
  apply (proj1 (setColumnWidths_other_columns
                  (setColumnWidths emptySheet [VNum 10; VNum 20; VNum 30])
                  [VNum 5] 3 1 (lit "A") (lit "A1:B1")
                  ltac:(right; simpl; lia))).
Defined.

(** ** The cells of a row *)

Lemma addDataRow_extends_columns (worksheet : Worksheet) (rowIndex : Z)
      (data : list value) :
  extends (fun c => exists j v,
               0 <= j < Z.of_nat (length data)
               /\ c = RowCellValue rowIndex (fromCharCode (65 + j)) v)
          worksheet (addDataRow worksheet rowIndex data).
Proof.
  apply forEach_from_extends_indexed. intros ws x j Hj.
  apply extends_record. exists j, x. split; [lia | reflexivity].
Qed.

Lemma setHeaders_extends_columns (worksheet : Worksheet)
      (headers : list value) :
  extends (fun c => exists j v,
               0 <= j < Z.of_nat (length headers)
               /\ c = CellValue (VStr (fromCharCode (65 + j) ++ lit "1")) v)
          worksheet (setHeaders worksheet headers).
Proof.
  apply forEach_from_extends_indexed. intros ws x j Hj.
  apply extends_record. exists j, x. split; [lia | reflexivity].
Qed.

(** The character of an index below 26 is the label of no column but
    its own. *)
Lemma charCode_not_other_letter (j : Z) (k : nat) :
  0 <= j < 26 -> j <> Z.of_nat k ->
  fromCharCode (65 + j) <> getExcelColumnLetter (Z.of_nat k + 1).
Proof.
  intros Hj Hne Heq.
  rewrite charCode_is_letter in Heq by lia.
  apply getExcelColumnLetter_injective in Heq; lia.
Qed.







(** ** Complex headers, entry after entry *)

Lemma mergeCells_extends (cellFrom cellTo v : value) (worksheet : Worksheet) :
  extends cellWrite worksheet (fst (mergeCells cellFrom cellTo v worksheet)).
Proof.
  unfold mergeCells, bind, lift, modify.
  destruct (toString cellFrom) as [f | ef]; [| apply extends_refl].
  destruct (toString cellTo) as [t | et]; [| apply extends_refl].
  simpl. eapply extends_trans; apply extends_record; exact I.
Qed.

Lemma setComplexHeader_extends (header : value) (worksheet : Worksheet) :
  extends cellWrite worksheet (fst (setComplexHeader header worksheet)).
Proof.
  unfold setComplexHeader, bind, lift, modify, throw.
  destruct (getProp header (lit "cell")) as [cell | e1];
    [| apply extends_refl].
  destruct (truthy cell).
  - destruct (getProp header (lit "value")) as [v | e2];
      [apply extends_record; exact I | apply extends_refl].
  - destruct (getProp header (lit "from")) as [from | e3];
      [| apply extends_refl].
    destruct (truthy from); [| apply extends_refl].
    destruct (getProp header (lit "to")) as [to | e4];
      [| apply extends_refl].
    destruct (truthy to); [| apply extends_refl].
    destruct (getProp header (lit "value")) as [v | e5];
      [apply mergeCells_extends | apply extends_refl].
Qed.

Lemma setComplexHeaders_cons (header : value) (rest : list value)
      (worksheet : Worksheet) :
  setComplexHeaders (header :: rest) worksheet
  = match setComplexHeader header worksheet with
    | (worksheet', Normal _) => setComplexHeaders rest worksheet'
    | (worksheet', Throw e) => (worksheet', Throw e)
    end.
Proof. reflexivity. Qed.

Lemma setComplexHeaders_extends (headers : list value) (worksheet : Worksheet) :
  extends cellWrite worksheet (fst (setComplexHeaders headers worksheet)).
Proof.
  revert worksheet. induction headers as [| header rest IH]; intros worksheet.
  - apply extends_refl.
  - rewrite setComplexHeaders_cons.
    pose proof (setComplexHeader_extends header worksheet) as Hstep.
    destruct (setComplexHeader header worksheet) as [ws' [[] | e]].
    + eapply extends_trans; [exact Hstep | apply IH].
    + exact Hstep.
Qed.

(** X10.  [setComplexHeaders] takes the entries in order and undoes
    nothing: the entries of [before ++ after] are those of [before], then
    those of [after] on the worksheet [before] left; when an entry of
    [before] is refused, what the entries before it wrote stays written
    and no entry of [after] is looked at. *)
Theorem setComplexHeaders_app (before after : list value)
        (worksheet : Worksheet) :
  setComplexHeaders (before ++ after) worksheet
  = match setComplexHeaders before worksheet with
    | (worksheet', Normal _) => setComplexHeaders after worksheet'
    | (worksheet', Throw e) => (worksheet', Throw e)
    end.
Proof.
  revert worksheet. induction before as [| header rest IH]; intros worksheet.
  - reflexivity.
  - rewrite <- app_comm_cons, !setComplexHeaders_cons.
    destruct (setComplexHeader header worksheet) as [ws' [[] | e]];
      [apply IH | reflexivity].
Qed.



(** X12.  [setComplexHeaders] writes cell values and merges only: whether
    it completes or throws, no column width, column alignment or row font
    changes, and what was merged stays merged. *)
Theorem setComplexHeaders_keeps_formatting (headers : list value)
        (worksheet : Worksheet) (col row : Z) (range : jsstring) :
  columnWidth (fst (setComplexHeaders headers worksheet)) col
  = columnWidth worksheet col
  /\ columnAlignment (fst (setComplexHeaders headers worksheet)) col
     = columnAlignment worksheet col
  /\ rowFont (fst (setComplexHeaders headers worksheet)) row
     = rowFont worksheet row
  /\ (merged worksheet range = true ->
      merged (fst (setComplexHeaders headers worksheet)) range = true).
Proof.
  pose proof (setComplexHeaders_extends headers worksheet) as Hext.
  split; [| split; [| split]].
  - unfold columnWidth. eapply extends_lastAssigned; [| exact Hext].
    intros c Hc. destruct c; try reflexivity; contradiction.
  - unfold columnAlignment. eapply extends_lastAssigned; [| exact Hext].
    intros c Hc. destruct c; try reflexivity; contradiction.
  - unfold rowFont. eapply extends_lastAssigned; [| exact Hext].
    intros c Hc. destruct c; try reflexivity; contradiction.
  - destruct Hext as [_ [_ [new [Hcalls _]]]]. unfold merged.
    rewrite Hcalls, existsb_app. intros ->. apply orb_true_r.
Qed.

Lemma getProp_object (ps : list (jsstring * value)) (k : jsstring) :
  getProp (VObj ps) k
  = Normal (match assoc k ps with Some x => x | None => VUndefined end).
Proof. reflexivity. Qed.

Lemma truthy_string (ps : list (jsstring * value)) (k : jsstring) :
  (forall v, assoc k ps = Some v -> exists s, v = VStr s) ->
  truthy (match assoc k ps with Some x => x | None => VUndefined end) = true ->
  exists s, assoc k ps = Some (VStr s).
Proof.
  intros Hstr Htruthy. destruct (assoc k ps) as [v |]; [| discriminate].
  destruct (Hstr v eq_refl) as [s ->]. exists s. reflexivity.
Qed.

(** One entry whose [from] and [to] are strings: written when it names
    a cell or a range, refused otherwise. *)
Lemma setComplexHeader_stringRange (header : value) (worksheet : Worksheet) :
  stringRange header ->
  (namesCellOrRange header = true ->
   snd (setComplexHeader header worksheet) = Normal tt)
  /\ (namesCellOrRange header = false ->
      exists cause,
        setComplexHeader header worksheet
        = (worksheet, Throw (ErrorObj complexHeaderMessage cause))).
Proof.
  intros [ps [-> [Hfrom Hto]]].
  rewrite (setComplexHeader_branches worksheet (VObj ps) _ _ _ _
             (getProp_object ps _) (getProp_object ps _)
             (getProp_object ps _) (getProp_object ps _)).
  unfold namesCellOrRange. rewrite !getProp_object.
  destruct (truthy (match assoc (lit "cell") ps with
                    | Some x => x | None => VUndefined end)).
  - split; [reflexivity | discriminate].
  - cbn [orb].
    destruct (truthy (match assoc (lit "from") ps with
                      | Some x => x | None => VUndefined end)) eqn:Hf;
      cbn [andb].
    + destruct (truthy (match assoc (lit "to") ps with
                        | Some x => x | None => VUndefined end)) eqn:Ht.
      * split; [intros _ | discriminate].
        destruct (truthy_string ps _ Hfrom Hf) as [f ->].
        destruct (truthy_string ps _ Hto Ht) as [t ->].
        reflexivity.
      * split; [discriminate | intros _]. eexists. reflexivity.
    + split; [discriminate | intros _]. eexists. reflexivity.
Qed.





(** ** When [createBuffer] throws and when it returns *)

(** X15.  [createBuffer] throws the size error exactly when the number
    of worksheet names differs from 0 in case headers and data have one
    length, and from 1 in case they have different lengths (the lengths
    being those of the three arguments made arrays). *)
Theorem createBuffer_size_error_iff (headers data worksheetNames : value) :
  snd (createBuffer headers data worksheetNames)
  = Throw (ErrorObj (lit "Size of headers, data and worksheetNames must be equal")
                    None)
  <-> (if Nat.eq_dec (length (asArray headers)) (length (asArray data))
       then 0%nat else 1%nat)
      <> length (asArray worksheetNames).
Proof.
  rewrite <- sizeCheck_spec. split.
  - intros Hthrow.
    destruct (createBuffer headers data worksheetNames) as [created result]
      eqn:Hcall.
    simpl in Hthrow. subst result.
    destruct created as [workbook |].
    + apply createBuffer_workbook in Hcall. destruct Hcall as [_ He].
      discriminate He.
    + unfold createBuffer in Hcall.
      destruct (sizeCheck _ _ _); [reflexivity |].
      destruct (forLoop _ _ _ _) as [wb [[] | e]]; discriminate Hcall.
  - intros Hcheck. unfold createBuffer. rewrite Hcheck. reflexivity.
Qed.

Lemma alwaysThrows_bind {S A B} (m : M S A) (k : A -> M S B) :
  (forall a, alwaysThrows (k a)) -> alwaysThrows (bind m k).
Proof.
  intros Hk s. unfold bind. destruct (m s) as [s' [a | e]].
  - apply Hk.
  - exists e. reflexivity.
Qed.

(** A pass of the loop at an index where [data] has no array throws. *)
Lemma sheetBody_no_data (headers data : list value) (i : Z) :
  arrayGet data i = VUndefined -> alwaysThrows (sheetBody headers data i).
Proof.
  intros Hdata. unfold sheetBody. rewrite Hdata.
  repeat (apply alwaysThrows_bind; intros ?).
  intros s. exists TypeError. reflexivity.
Qed.

Lemma forLoop_throws {S} (body : Z -> M S unit) (n : nat) (i j : Z) :
  i <= j < i + Z.of_nat n -> alwaysThrows (body j) ->
  alwaysThrows (forLoop n i body).
Proof.
  revert i. induction n as [| n IH]; intros i Hj Hbody s; [lia |].
  cbn [forLoop]. unfold bind.
  destruct (body i s) as [s' [[] | e]] eqn:Hstep.
  - destruct (Z.eq_dec j i) as [-> | Hne].
    + destruct (Hbody s) as [e He]. rewrite Hstep in He. discriminate He.
    + apply IH; [lia | exact Hbody].
  - exists e. reflexivity.
Qed.

Lemma arrayGet_beyond (xs : list value) (i : Z) :
  Z.of_nat (length xs) <= i -> arrayGet xs i = VUndefined.
Proof.
  intros Hi. unfold arrayGet. destruct (Z.ltb_spec i 0); [reflexivity |].
  apply nth_overflow. lia.
Qed.

(** X16.  [createBuffer] returns a buffer only for no worksheet name and
    as many data arrays as headers, or for one worksheet name and more
    data arrays than headers. *)
Theorem createBuffer_returns_only_if
        (headers data worksheetNames : value) (buffer : Buffer)
        (Hreturn : snd (createBuffer headers data worksheetNames)
                   = Normal buffer) :
  (length (asArray worksheetNames) = 0%nat
   /\ length (asArray headers) = length (asArray data))
  \/ (length (asArray worksheetNames) = 1%nat
      /\ (length (asArray headers) < length (asArray data))%nat).
Proof.
  unfold createBuffer in Hreturn.
  destruct (sizeCheck _ _ _) eqn:Hcheck; [discriminate Hreturn |].
  assert (Hsizes : (if Nat.eq_dec (length (asArray headers))
                                  (length (asArray data))
                    then 0%nat else 1%nat)
                   = length (asArray worksheetNames)).
  { destruct (Nat.eq_dec
                (if Nat.eq_dec (length (asArray headers))
                               (length (asArray data))
                 then 0%nat else 1%nat)
                (length (asArray worksheetNames))) as [Heq | Hne];
      [exact Heq |].
    apply sizeCheck_spec in Hne. congruence. }
  destruct (Nat.eq_dec (length (asArray headers)) (length (asArray data)))
    as [Heq | Hne]; [left; split; congruence |].
  right. split; [congruence |].
  destruct (Nat.lt_ge_cases (length (asArray headers))
                            (length (asArray data))) as [Hlt | Hge];
    [exact Hlt | exfalso].
  assert (Hthrows : alwaysThrows
                      (forLoop (length (asArray headers)) 0
                               (sheetBody (asArray headers) (asArray data)))).
  { apply (forLoop_throws _ _ 0 (Z.of_nat (length (asArray data)))); [lia |].
    apply sheetBody_no_data. apply arrayGet_beyond. lia. }
  destruct (Hthrows createWorkbook) as [e He].
  destruct (forLoop _ _ _ _) as [wb [[] | e']]; simpl in *; discriminate.
Qed.

Lemma createBuffer_returns_only_if_witness :
  (length (asArray (VArr [])) = 0%nat
   /\ length (asArray (VArr [idLabelHeaders]))
      = length (asArray (VArr [idLabelData])))
  \/ (length (asArray (VArr [])) = 1%nat
      /\ (length (asArray (VArr [idLabelHeaders]))
          < length (asArray (VArr [idLabelData])))%nat).
Proof.
  apply (createBuffer_returns_only_if
           (VArr [idLabelHeaders]) (VArr [idLabelData]) (VArr [])
           (Xlsx (match fst (createBuffer (VArr [idLabelHeaders])
                                          (VArr [idLabelData]) (VArr []))
                  with Some workbook => workbook | None => [] end))
           eq_refl).
Defined.



(** ** The sheets [createBuffer] builds *)

Lemma getProp_propOf (v : value) (k : jsstring) :
  nullish v = false -> getProp v k = Normal (propOf v k).
Proof.
  intros Hv. unfold propOf.
  destruct (getProp v k) as [x | e] eqn:Hget; [reflexivity |].
  destruct v; try discriminate Hv; simpl in Hget; try discriminate Hget;
    destruct (jsstring_eqb k (lit "length")); discriminate Hget.
Qed.

Lemma mapC_getProp_items (items : list value) (k : jsstring) :
  Forall (fun item => nullish item = false) items ->
  mapC (fun item => getProp item k) items
  = Normal (map (fun item => propOf item k) items).
Proof.
  induction 1 as [| item items Hitem Hitems IH]; [reflexivity |].
  cbn [mapC map]. rewrite (getProp_propOf item k Hitem), IH. reflexivity.
Qed.

Lemma mapC_getProp_fields (dataItem : value) (fields : list jsstring) :
  nullish dataItem = false ->
  mapC (fun field => getProp dataItem field) fields
  = Normal (map (fun field => propOf dataItem field) fields).
Proof.
  intros Hitem. induction fields as [| field fields IH]; [reflexivity |].
  cbn [mapC map]. rewrite (getProp_propOf dataItem field Hitem), IH.
  reflexivity.
Qed.

Lemma updateSheet_last (f : Worksheet -> Worksheet) (workbook : Workbook)
      (worksheet : Worksheet) :
  updateSheet (length workbook) f (workbook ++ [worksheet])
  = workbook ++ [f worksheet].
Proof.
  induction workbook as [| ws rest IH]; simpl; [reflexivity |].
  rewrite IH. reflexivity.
Qed.

Lemma forEachM_rows (fieldNames : list jsstring) (rows : list value)
      (i : Z) (workbook : Workbook) (worksheet : Worksheet) :
  Forall (fun row => nullish row = false) rows ->
  forEachM_from
    (fun dataItem index =>
       values <- lift (mapC (fun field => getProp dataItem field) fieldNames) ;;
       onSheet (length workbook)
               (fun ws => addDataRow ws (2 + index) values))
    i rows (workbook ++ [worksheet])
  = (workbook
       ++ [forEach_from
             (fun ws dataItem index =>
                addDataRow ws (2 + index)
                           (map (fun field => propOf dataItem field) fieldNames))
             i rows worksheet],
     Normal tt).
Proof.
  intros Hrows. revert i worksheet.
  induction Hrows as [| row rows Hrow Hrows IH]; intros i worksheet;
    [reflexivity |].
  cbn [forEachM_from forEach_from]. unfold bind at 1. unfold bind at 1.
  unfold lift at 1. rewrite (mapC_getProp_fields row fieldNames Hrow).
  unfold onSheet at 1, modify at 1. rewrite updateSheet_last. apply IH.
Qed.

(** A pass of the loop over well-formed headers and data adds the sheet
    of them. *)
Lemma sheetBody_wellFormed (headers data : list value) (i : Z)
      (workbook : Workbook) :
  wellFormed (arrayGet headers i) (arrayGet data i) ->
  sheetBody headers data i workbook
  = (workbook ++ [sheetFor (arrayGet headers i) (arrayGet data i)], Normal tt).
Proof.
  intros [hps [rows [Hh [Hd [Hitems Hrows]]]]].
  unfold sheetBody. rewrite Hh, Hd. cbn [sheetFor].
  assert (Hvalues : Forall (fun item => nullish item = false) (map snd hps)).
  { apply Forall_map. exact Hitems. }
  unfold Object_values, Object_keys. cbn [ownProperties].
  unfold bind at 1. unfold addWorksheet at 1.
  unfold bind at 1. unfold onSheet at 1, modify at 1. rewrite updateSheet_last.
  unfold bind at 1. unfold lift at 1.
  unfold bind at 1. unfold lift at 1.
  rewrite (mapC_getProp_items (map snd hps) (lit "name") Hvalues).
  unfold bind at 1. unfold onSheet at 1, modify at 1. rewrite updateSheet_last.
  unfold bind at 1. unfold lift at 1.
  unfold bind at 1. unfold lift at 1.
  rewrite (mapC_getProp_items (map snd hps) (lit "width") Hvalues).
  unfold bind at 1. unfold onSheet at 1, modify at 1. rewrite updateSheet_last.
  unfold bind at 1. unfold lift at 1.
  unfold forEachM. rewrite (forEachM_rows _ _ _ _ _ Hrows).
  reflexivity.
Qed.

Lemma forLoop_wellFormed (headers data : list value) (n : nat) (i : Z)
      (workbook : Workbook) :
  (forall j, i <= j < i + Z.of_nat n ->
             wellFormed (arrayGet headers j) (arrayGet data j)) ->
  forLoop n i (sheetBody headers data) workbook
  = (workbook
       ++ map (fun j => sheetFor (arrayGet headers j) (arrayGet data j))
              (map (fun k => i + Z.of_nat k) (seq 0 n)),
     Normal tt).
Proof.
  revert i workbook. induction n as [| n IH]; intros i workbook Hwf.
  - simpl. rewrite app_nil_r. reflexivity.
  - cbn [forLoop]. unfold bind.
    rewrite sheetBody_wellFormed by (apply Hwf; lia).
    rewrite IH by (intros j Hj; apply Hwf; lia).
    rewrite <- app_assoc. f_equal. f_equal.
    cbn [seq map app]. rewrite Z.add_0_r. f_equal.
    rewrite <- seq_shift, !map_map. apply map_ext.
    intros k. replace (i + Z.of_nat (S k)) with (i + 1 + Z.of_nat k) by lia.
    reflexivity.
Qed.



(** ** Reading the sheet of a header object and a data array *)

Lemma setColumnWidths_assigned (worksheet : Worksheet) (widths : list value)
      (k : nat) :
  (k < length widths)%nat ->
  columnWidth (setColumnWidths worksheet widths) (Z.of_nat k + 1)
  = Some (nth k widths VUndefined)
  /\ columnAlignment (setColumnWidths worksheet widths) (Z.of_nat k + 1)
     = Some defaultAlignment.
Proof.
  revert k. induction widths as [| w widths IH] using rev_ind; intros k Hk.
  - simpl in Hk. lia.
  - rewrite length_app in Hk. cbn [length] in Hk.
    unfold setColumnWidths. rewrite forEach_snoc.
    fold (setColumnWidths worksheet widths).
    unfold columnWidth, columnAlignment.
    cbn [ws_calls record lastAssigned].
    destruct (Z.eqb_spec (Z.of_nat (length widths) + 1) (Z.of_nat k + 1))
      as [Heq | Hne].
    + assert (k = length widths) by lia. subst k.
      rewrite nth_middle. split; reflexivity.
    + rewrite app_nth1 by lia. apply IH. lia.
Qed.

Lemma addDataRow_cellValue_other_row (worksheet : Worksheet) (rowIndex : Z)
      (data : list value) (column : jsstring) (row : Z) :
  row <> rowIndex ->
  cellValue (addDataRow worksheet rowIndex data) column row
  = cellValue worksheet column row.
Proof.
  intros Hrow. unfold cellValue.
  eapply extends_lastAssigned; [| apply addDataRow_extends].
  intros c [col' [v ->]].
  destruct (Z.eqb_spec rowIndex row); [congruence | reflexivity].
Qed.

(** The rows of a sheet go to the rows from 2 on. *)
Lemma dataRows_extends (fieldNames : list jsstring) (rows : list value)
      (worksheet : Worksheet) :
  extends (fun c => exists row col v, 2 <= row /\ c = RowCellValue row col v)
          worksheet
          (forEach (fun ws dataItem index =>
                      addDataRow ws (2 + index)
                                 (map (fun field => propOf dataItem field)
                                      fieldNames))
                   rows worksheet).
Proof.
  apply forEach_from_extends_indexed. intros ws x j Hj.
  eapply extends_weaken; [| apply addDataRow_extends].
  intros c [col [v ->]]. exists (2 + j), col, v. split; [lia | reflexivity].
Qed.

Lemma nth_map_default {A B} (f : A -> B) (xs : list A) (k : nat)
      (d : B) (d' : A) :
  (k < length xs)%nat -> nth k (map f xs) d = f (nth k xs d').
Proof.
  intros Hk. rewrite (nth_indep _ d (f d')) by (rewrite length_map; exact Hk).
  apply map_nth.
Qed.



(** ** Alignment of rows and columns *)

Lemma countFrom_cons (i : Z) (n : nat) :
  countFrom i (S n) = i :: countFrom (i + 1) n.
Proof.
  unfold countFrom. cbn [seq map]. rewrite Z.add_0_r. f_equal.
  rewrite <- seq_shift, map_map. apply map_ext.
  intros k. lia.
Qed.

Lemma countFrom_snoc (i : Z) (n : nat) :
  countFrom i (S n) = countFrom i n ++ [i + Z.of_nat n].
Proof.
  unfold countFrom. rewrite seq_S, map_app. reflexivity.
Qed.

Lemma forRange_cons (mk : Z -> styleCall) (n : nat) (i : Z)
      (worksheet : Styles) :
  forRange n i (fun j ws => mk j :: ws) worksheet
  = rev (map mk (countFrom i n)) ++ worksheet.
Proof.
  revert i worksheet. induction n as [| n IH]; intros i worksheet.
  - reflexivity.
  - cbn [forRange]. rewrite IH, countFrom_cons. cbn [map rev].
    rewrite <- app_assoc. reflexivity.
Qed.

Lemma forLoop_modify {S} (body : Z -> M S unit) (f : Z -> S -> S)
      (n : nat) (i : Z) (s : S) :
  (forall j s', body j s' = (f j s', Normal tt)) ->
  forLoop n i body s = (forRange n i f s, Normal tt).
Proof.
  intros Hbody. revert i s. induction n as [| n IH]; intros i s.
  - reflexivity.
  - cbn [forLoop forRange]. unfold bind. rewrite Hbody. apply IH.
Qed.

Lemma lastStyle_app {A} (sel : styleCall -> option A) (new old : Styles) :
  lastStyle sel (new ++ old)
  = match lastStyle sel new with
    | Some a => Some a
    | None => lastStyle sel old
    end.
Proof.
  induction new as [| c new IH]; simpl; [reflexivity |].
  destruct (sel c); [reflexivity | exact IH].
Qed.

Lemma lastStyle_none {A} (sel : styleCall -> option A) (new : Styles) :
  Forall (fun c => sel c = None) new -> lastStyle sel new = None.
Proof.
  induction 1 as [| c new Hc Hnew IH]; simpl; [reflexivity |].
  rewrite Hc. exact IH.
Qed.

(** What a selection finds after a loop that makes the assignment
    [mk j] at each count [j], when it sees the assignment at [target]
    only. *)
Lemma lastStyle_count {A} (sel : styleCall -> option A) (mk : Z -> styleCall)
      (hit : A) (target : Z) (n : nat) (i : Z) (worksheet : Styles) :
  (forall j, i <= j < i + Z.of_nat n ->
             sel (mk j) = if j =? target then Some hit else None) ->
  lastStyle sel (rev (map mk (countFrom i n)) ++ worksheet)
  = if (i <=? target) && (target <? i + Z.of_nat n) then Some hit
    else lastStyle sel worksheet.
Proof.
  induction n as [| n IH]; intros Hsel.
  - cbn [countFrom seq map rev app].
    destruct (Z.leb_spec i target); destruct (Z.ltb_spec target (i + Z.of_nat 0));
      try reflexivity; lia.
  - rewrite countFrom_snoc, map_app, rev_app_distr. cbn [map rev app lastStyle].
    rewrite Hsel by lia.
    destruct (Z.eqb_spec (i + Z.of_nat n) target) as [Heq | Hne].
    + destruct (Z.leb_spec i target);
        destruct (Z.ltb_spec target (i + Z.of_nat (S n)));
        try reflexivity; lia.
    + rewrite IH by (intros j Hj; apply Hsel; lia).
      destruct (Z.leb_spec i target);
        destruct (Z.ltb_spec target (i + Z.of_nat n));
        destruct (Z.ltb_spec target (i + Z.of_nat (S n)));
        try reflexivity; lia.
Qed.

Lemma lastStyle_unseen {A I} (sel : styleCall -> option A)
      (mk : I -> styleCall) (indices : list I) (worksheet : Styles) :
  (forall j, sel (mk j) = None) ->
  lastStyle sel (rev (map mk indices) ++ worksheet) = lastStyle sel worksheet.
Proof.
  intros Hsel. rewrite lastStyle_app, lastStyle_none; [reflexivity |].
  apply Forall_rev, Forall_map, Forall_forall. intros j _. apply Hsel.
Qed.

(** X20.  [alignRows] gives the alignment to the rows 1 to [rowTo] and
    to no other row.  A [rowTo] that is 0 or not given stands for the
    row count of the worksheet, so a call cannot ask for no row; a
    negative [rowTo] aligns nothing.  No column width or column
    alignment changes. *)
Theorem alignRows_rows (worksheet : Styles) (rowCount : Z) (alignment : value)
        (rowTo : option Z) (row : Z) (name : jsstring) :
  rowAlignment (alignRows worksheet rowCount alignment rowTo) row
  = (if (1 <=? row)
        && (row <=? match rowTo with
                    | Some n => if n =? 0 then rowCount else n
                    | None => rowCount
                    end)
     then Some alignment
     else rowAlignment worksheet row)
  /\ alignRows worksheet rowCount alignment (Some 0)
     = alignRows worksheet rowCount alignment None
  /\ (forall n, n < 0 -> alignRows worksheet rowCount alignment (Some n)
                         = worksheet)
  /\ columnWidthOf (alignRows worksheet rowCount alignment rowTo) name
     = columnWidthOf worksheet name
  /\ columnAlignmentOf (alignRows worksheet rowCount alignment rowTo) name
     = columnAlignmentOf worksheet name.
Proof.
  unfold alignRows.
  set (limit := match rowTo with
                | Some n => if n =? 0 then rowCount else n
                | None => rowCount
                end).
  rewrite (forRange_cons (fun j => RowAlignmentOf j alignment)).
  split; [| split; [| split; [| split]]].
  - unfold rowAlignment.
    rewrite (lastStyle_count _ (fun j => RowAlignmentOf j alignment)
                             alignment row).
    + destruct (Z.leb_spec 1 row); cbn [andb]; [| reflexivity].
      destruct (Z.ltb_spec row (1 + Z.of_nat (Z.to_nat limit)));
        destruct (Z.leb_spec row limit); try reflexivity; lia.
    + intros j _. reflexivity.
  - reflexivity.
  - intros n Hn. destruct (Z.eqb_spec n 0); [lia |].
    destruct n; try lia. reflexivity.
  - unfold columnWidthOf. apply lastStyle_unseen. reflexivity.
  - unfold columnAlignmentOf. apply lastStyle_unseen. reflexivity.
Qed.

Lemma alignColumns_object (totalColumns : Z) (ps : list (jsstring * value))
      (worksheet : Styles) :
  alignColumns totalColumns (VObj ps) worksheet
  = (rev (map (fun j =>
                 ColumnAlignmentOf
                   (VStr (getExcelColumnLetter j))
                   (match assoc (getExcelColumnLetter j) ps with
                    | Some a => if truthy a then a else centered
                    | None => centered
                    end))
              (countFrom 1 (Z.to_nat totalColumns)))
       ++ worksheet,
     Normal tt).
Proof.
  unfold alignColumns.
  rewrite (forLoop_modify
             _ (fun j ws =>
                  ColumnAlignmentOf
                    (VStr (getExcelColumnLetter j))
                    (match assoc (getExcelColumnLetter j) ps with
                     | Some a => if truthy a then a else centered
                     | None => centered
                     end) :: ws)).
  - rewrite (forRange_cons
               (fun j =>
                  ColumnAlignmentOf
                    (VStr (getExcelColumnLetter j))
                    (match assoc (getExcelColumnLetter j) ps with
                     | Some a => if truthy a then a else centered
                     | None => centered
                     end))).
    reflexivity.
  - intros j ws. unfold bind, lift, modify. rewrite getProp_object.
    destruct (assoc (getExcelColumnLetter j) ps); reflexivity.
Qed.

(** X21.  For an object [specialCells], [alignColumns] completes and
    gives each column from 1 to the column count, got by its letter, one
    alignment: the value [specialCells] has under the letter when that is
    truthy, and vertical middle, horizontal center (without wrapText)
    otherwise; columns after the column count keep theirs.  Not giving
    [specialCells] is giving the empty object.  No column width and no
    row alignment changes. *)
Theorem alignColumns_columns (worksheet : Styles) (totalColumns : Z)
        (ps : list (jsstring * value)) (c row : Z) (name : jsstring)
        (Hc : 1 <= c) :
  snd (alignColumns totalColumns (VObj ps) worksheet) = Normal tt
  /\ columnAlignmentOf (fst (alignColumns totalColumns (VObj ps) worksheet))
                       (getExcelColumnLetter c)
     = (if c <=? totalColumns
        then Some (match assoc (getExcelColumnLetter c) ps with
                   | Some a =>
                       if truthy a then a
                       else VObj [(lit "vertical", VStr (lit "middle"));
                                  (lit "horizontal", VStr (lit "center"))]
                   | None =>
                       VObj [(lit "vertical", VStr (lit "middle"));
                             (lit "horizontal", VStr (lit "center"))]
                   end)
        else columnAlignmentOf worksheet (getExcelColumnLetter c))
  /\ alignColumns totalColumns VUndefined worksheet
     = alignColumns totalColumns (VObj []) worksheet
  /\ columnWidthOf (fst (alignColumns totalColumns (VObj ps) worksheet)) name
     = columnWidthOf worksheet name
  /\ rowAlignment (fst (alignColumns totalColumns (VObj ps) worksheet)) row
     = rowAlignment worksheet row.
Proof.
  rewrite alignColumns_object. cbn [fst snd].
  split; [reflexivity |]. split; [| split; [reflexivity | split]].
  - unfold columnAlignmentOf.
    rewrite (lastStyle_count
               _ _ (match assoc (getExcelColumnLetter c) ps with
                    | Some a => if truthy a then a else centered
                    | None => centered
                    end) c).
    + destruct (Z.leb_spec 1 c); [| lia]. cbn [andb].
      destruct (Z.ltb_spec c (1 + Z.of_nat (Z.to_nat totalColumns)));
        destruct (Z.leb_spec c totalColumns); try reflexivity; lia.
    + intros j Hj. cbn beta iota.
      destruct (Z.eqb_spec j c) as [-> | Hne].
      * rewrite jsstring_eqb_refl. reflexivity.
      * rewrite jsstring_eqb_neq; [reflexivity |].
        intros Heq. apply getExcelColumnLetter_injective in Heq; lia.
  - unfold columnWidthOf. apply lastStyle_unseen. reflexivity.
  - unfold rowAlignment. apply lastStyle_unseen. reflexivity.
Qed.

Lemma alignColumns_columns_witness :
  columnAlignmentOf
    (fst (alignColumns 3 (VObj [(lit "B", VObj [(lit "horizontal",
                                                 VStr (lit "left"))])]) []))
    (getExcelColumnLetter 2)
  = Some (VObj [(lit "horizontal", VStr (lit "left"))]).
Proof.
  apply (proj1 (proj2 (alignColumns_columns
                         [] 3
                         [(lit "B", VObj [(lit "horizontal",
                                           VStr (lit "left"))])]
                         2 1 (lit "A") ltac:(lia)))).
Defined.

(** X22.  With [null] for [specialCells], [alignColumns] throws a
    [TypeError] at the first column, before any assignment, when the
    column count is 1 or more, and completes without any assignment
    otherwise. *)
Theorem alignColumns_null (worksheet : Styles) (totalColumns : Z) :
  alignColumns totalColumns VNull worksheet
  = if 1 <=? totalColumns then (worksheet, Throw TypeError)
    else (worksheet, Normal tt).
Proof.
  unfold alignColumns.
  destruct (Z.leb_spec 1 totalColumns) as [Hge | Hlt].
  - destruct (Z.to_nat totalColumns) as [| n] eqn:Hn; [lia |].
    reflexivity.
  - replace (Z.to_nat totalColumns) with 0%nat by lia. reflexivity.
Qed.

(** ** Widths of named columns *)

Lemma getProp_not_nullish (v : value) (k : jsstring) (x : value) :
  getProp v k = Normal x -> nullish v = false.
Proof. destruct v; simpl; try reflexivity; discriminate. Qed.

Lemma last_of_snoc (xs : list value) (x : value) (g : option value) :
  match rev (xs ++ [x]) with c :: _ => Some c | [] => g end = Some x.
Proof. rewrite rev_app_distr. reflexivity. Qed.

(** The columns of one item, one after the other. *)
Lemma forOf_columns (item : value) (width : value) (columns : list value)
      (worksheet : Styles) (column : option value) :
  getProp item (lit "width") = Normal width ->
  forOf (fun colName =>
           width <- lift (getProp item (lit "width")) ;;
           modify (fun state : Styles * option value =>
                     (ColumnWidthOf colName width :: fst state, Some colName)))
        columns (worksheet, column)
  = ((rev (map (fun colName => ColumnWidthOf colName width) columns)
        ++ worksheet,
      match rev columns with c :: _ => Some c | [] => column end),
     Normal tt).
Proof.
  intros Hwidth.
  set (body := fun colName : value =>
                 width <- lift (getProp item (lit "width")) ;;
                 modify (fun state : Styles * option value =>
                           (ColumnWidthOf colName width :: fst state,
                            Some colName))).
  assert (Hstep : forall colName state,
             body colName state
             = ((ColumnWidthOf colName width :: fst state, Some colName),
                Normal tt)).
  { intros colName state. unfold body, bind, lift, modify.
    rewrite Hwidth. reflexivity. }
  clearbody body. revert worksheet column.
  induction columns as [| colName columns IH]; intros worksheet column.
  - reflexivity.
  - cbn [forOf]. unfold bind. rewrite Hstep. cbn [fst].
    rewrite IH. cbn [map rev]. rewrite <- app_assoc. cbn [app].
    f_equal. f_equal.
    destruct (rev columns) as [| c l]; reflexivity.
Qed.

Lemma columnWidthOf_columns (columns : list value) (width : value)
      (worksheet : Styles) (name : jsstring) :
  columnWidthOf (rev (map (fun colName => ColumnWidthOf colName width) columns)
                   ++ worksheet) name
  = if listsColumn columns name then Some width
    else columnWidthOf worksheet name.
Proof.
  induction columns as [| colName columns IH] using rev_ind.
  - reflexivity.
  - rewrite map_app, rev_app_distr. cbn [map rev app].
    unfold listsColumn. rewrite existsb_app. cbn [existsb].
    rewrite orb_false_r. fold (listsColumn columns name).
    unfold columnWidthOf in *. cbn [lastStyle].
    destruct colName as [| | b | n | name' | ps | xs];
      try (rewrite orb_false_r; exact IH).
    destruct (jsstring_eqb name' name).
    + rewrite orb_true_r. reflexivity.
    + rewrite orb_false_r. exact IH.
Qed.

Lemma forEachM_from_cons {S} (body : value -> Z -> M S unit)
      (x : value) (xs : list value) (i : Z) (s : S) :
  forEachM_from body i (x :: xs) s
  = match body x i s with
    | (s', Normal _) => forEachM_from body (i + 1) xs s'
    | (s', Throw e) => (s', Throw e)
    end.
Proof. reflexivity. Qed.

(** An item whose [columns] is an array. *)
Lemma setPartialColumnWidth_array (item : value) (xs : list value)
      (worksheet : Styles) (column : option value) :
  getProp item (lit "columns") = Normal (VArr xs) ->
  setPartialColumnWidth item (worksheet, column)
  = ((rev (map (fun colName =>
                  ColumnWidthOf colName (propOf item (lit "width"))) xs)
        ++ worksheet,
      match rev xs with c :: _ => Some c | [] => column end),
     Normal tt).
Proof.
  intros Hcolumns.
  pose proof (getProp_propOf item (lit "width")
                (getProp_not_nullish _ _ _ Hcolumns)) as Hwidth.
  unfold setPartialColumnWidth.
  unfold bind at 1. unfold lift at 1. rewrite Hcolumns.
  unfold bind at 1. unfold lift at 1. cbn [iterate].
  apply forOf_columns. exact Hwidth.
Qed.

(** An item whose [columns] cannot be iterated. *)
Lemma setPartialColumnWidth_not_iterable (item : value)
      (state : Styles * option value) :
  match getProp item (lit "columns") with
  | Normal (VArr _) | Normal (VStr _) => False
  | _ => True
  end ->
  setPartialColumnWidth item state = (state, Throw TypeError).
Proof.
  intros Hitem. unfold setPartialColumnWidth.
  unfold bind at 1. unfold lift at 1.
  destruct (getProp item (lit "columns")) as [columns | e] eqn:Hget.
  - unfold bind at 1. unfold lift at 1.
    destruct columns; try contradiction; reflexivity.
  - apply getProp_throws in Hget. subst e. reflexivity.
Qed.

Lemma setPartialColumnWidths_from (items : list value) (i : Z)
      (worksheet : Styles) (column : option value) :
  Forall (fun item => exists xs, getProp item (lit "columns") = Normal (VArr xs))
         items ->
  exists worksheet',
    forEachM_from (fun item _ => setPartialColumnWidth item)
                  i items (worksheet, column)
    = ((worksheet',
        fold_left (fun acc item =>
                     match rev (columnsOf item) with
                     | c :: _ => Some c
                     | [] => acc
                     end) items column),
       Normal tt)
    /\ (forall name,
           columnWidthOf worksheet' name
           = fold_left (fun acc item =>
                          if listsColumn (columnsOf item) name
                          then Some (propOf item (lit "width"))
                          else acc)
                       items (columnWidthOf worksheet name))
    /\ (forall name, columnAlignmentOf worksheet' name
                     = columnAlignmentOf worksheet name)
    /\ (forall row, rowAlignment worksheet' row = rowAlignment worksheet row).
Proof.
  intros Hitems. revert i worksheet column.
  induction Hitems as [| item items [xs Hcolumns] Hitems IH];
    intros i worksheet column.
  - exists worksheet. repeat split.
  - rewrite forEachM_from_cons.
    rewrite (setPartialColumnWidth_array item xs _ _ Hcolumns).
    cbn [fold_left].
    assert (Hof : columnsOf item = xs)
      by (unfold columnsOf; rewrite Hcolumns; reflexivity).
    rewrite Hof.
    destruct (IH (i + 1)
                 (rev (map (fun colName =>
                              ColumnWidthOf colName (propOf item (lit "width")))
                           xs) ++ worksheet)
                 (match rev xs with c :: _ => Some c | [] => column end))
      as [worksheet' [Hrun [Hw [Ha Hr]]]].
    exists worksheet'. split; [exact Hrun |].
    split; [| split].
    + intros name. rewrite Hw, columnWidthOf_columns. reflexivity.
    + intros name. rewrite Ha. unfold columnAlignmentOf.
      apply lastStyle_unseen. reflexivity.
    + intros row. rewrite Hr. unfold rowAlignment.
      apply lastStyle_unseen. reflexivity.
Qed.





Lemma codePoints_units (s : jsstring) :
  Forall (fun c => isHighSurrogate c = false) s ->
  codePoints s = map (fun c => [c]) s.
Proof.
  induction 1 as [| c rest Hc Hrest IH]; [reflexivity |].
  cbn [codePoints map]. rewrite Hc. cbn [andb].
  destruct rest as [| d rest']; [reflexivity |].
  rewrite IH. reflexivity.
Qed.


